(** * EveBox webapp: the overview report's refresh controller

    A shallow embedding of [OverviewReport] from
    [webapp/src/reports/OverviewReport.tsx]: the [loading] counter, the
    [histogram] chart object, the [hiddenTypes] registry, [refresh],
    [buildChart], the legend's [onClick] handler, and the promise callbacks
    attached to [API.groupBy] and [API.histogramTime].

    The component runs on one thread.  Its state is threaded explicitly
    through every function; network completions and user actions are events
    delivered one at a time by [step]. *)

From stdpp Require Import base gmap list strings.
From Stdlib Require Import ZArith.

(** ** Wire data *)

(** One element of [response.data] of a histogram call. *)
Record Point := { time : Z; count : Z }.

(** One element of [response.rows] of a group-by call. *)
Record Row := { key : string; doc_count : Z }.

(** How a promise settles. *)
Inductive Outcome (A : Type) : Type :=
| Fulfilled (value : A)
| Rejected (reason : string).
Arguments Fulfilled {A} value.
Arguments Rejected {A} reason.

(** ** Properties of the registry object

    [hiddenTypes] is an object literal: its own properties are the keys it
    was given or assigned, and it inherits from [Object.prototype].  Reading
    a key that is no own property finds the prototype's property of that
    name, if there is one: a function, or for [__proto__] the prototype
    itself. *)
Inductive Value :=
| Undefined
| Bool (b : bool)
| Inherited.

(** The property names of [Object.prototype]. *)
Definition Object_prototype : list string :=
  ["constructor"; "hasOwnProperty"; "isPrototypeOf"; "propertyIsEnumerable";
   "toLocaleString"; "toString"; "valueOf";
   "__defineGetter__"; "__defineSetter__";
   "__lookupGetter__"; "__lookupSetter__"; "__proto__"].

(** [o[k]] for an object with own properties [o]. *)
Definition get (o : gmap string bool) (k : string) : Value :=
  match o !! k with
  | Some b => Bool b
  | None => if bool_decide (k ∈ Object_prototype) then Inherited else Undefined
  end.

(** [o[k] = b].  The assignment creates or overwrites an own property,
    except for [__proto__]: unless it is an own property, the assignment
    runs the prototype's setter, which ignores a boolean. *)
Definition put (k : string) (b : bool) (o : gmap string bool)
  : gmap string bool :=
  if bool_decide (k = "__proto__" ∧ o !! k = None) then o else <[k := b]> o.

(** ** The chart object

    [Chart] is the part of a Chart.js chart that [OverviewReport] reads or
    writes: [data.labels], [data.datasets], and per dataset index the
    [hidden] flag of the dataset's meta, which [hide] and [show] set and
    [isDatasetVisible] reads before falling back on the dataset's own
    [hidden] property. *)
Module ChartJs.

(** [data.labels] is a reference: either the array literal of the chart's
    own configuration, which nothing else can reach, or the [labels] array
    of a discovery callback (by address in the store of such arrays). *)
Inductive LabelsRef :=
| OwnLabels
| SharedLabels (a : nat).

(** The object literal pushed on [data.datasets].  [hidden] is the result
    of a property read on the registry. *)
Record Dataset := {
  data : list Z;
  label : string;
  pointRadius : Z;
  hidden : Value
}.

Record Chart := {
  data_labels : LabelsRef;
  data_datasets : list Dataset;
  meta_hidden : gmap nat bool
}.

(** [new Chart(ctx, config)] with [data: { labels: [], datasets: [] }]. *)
Definition new_Chart : Chart :=
  {| data_labels := OwnLabels; data_datasets := []; meta_hidden := ∅ |}.

(** JavaScript truthiness. *)
Definition truthy (h : Value) : bool :=
  match h with
  | Undefined => false
  | Bool b => b
  | Inherited => true
  end.

Definition isDatasetVisible (ci : Chart) (index : nat) : bool :=
  match data_datasets ci !! index with
  | None => false
  | Some ds =>
      match meta_hidden ci !! index with
      | Some h => negb h
      | None => negb (truthy (hidden ds))
      end
  end.

Definition setDatasetVisibility (ci : Chart) (index : nat) (visible : bool)
  : Chart :=
  {| data_labels := data_labels ci;
     data_datasets := data_datasets ci;
     meta_hidden := <[index := negb visible]> (meta_hidden ci) |}.

Definition hide (ci : Chart) (index : nat) : Chart :=
  setDatasetVisibility ci index false.

Definition show (ci : Chart) (index : nat) : Chart :=
  setDatasetVisibility ci index true.

Definition set_labels (r : LabelsRef) (ci : Chart) : Chart :=
  {| data_labels := r;
     data_datasets := data_datasets ci;
     meta_hidden := meta_hidden ci |}.

Definition push_dataset (ds : Dataset) (ci : Chart) : Chart :=
  {| data_labels := data_labels ci;
     data_datasets := data_datasets ci ++ [ds];
     meta_hidden := meta_hidden ci |}.

(** A legend entry: one per dataset, carrying the dataset's label and
    index. *)
Record LegendItem := {
  text : string;
  datasetIndex : nat;
  item_hidden : bool
}.

Definition generateLabels (ci : Chart) : list LegendItem :=
  imap (fun i ds =>
          {| text := label ds;
             datasetIndex := i;
             item_hidden := negb (isDatasetVisible ci i) |})
       (data_datasets ci).

End ChartJs.
Import ChartJs.

(** The two arrays a discovery callback creates and its histogram
    callbacks share. *)
Record Scope := { eventTypes : list string; labels : list Z }.

Record GroupByRequest := {
  field : string;
  size : Z;
  gb_time_range : string
}.

Section Controller.

(** [getInterval] and [parse_timerange] come from [../datetime]; only
    their composition on the captured time range is used. *)
Context {Range Interval : Type}.
Context (parse_timerange : string → Range) (getInterval : Range → Interval).

Record HistogramTimeRequest := {
  time_range : string;
  interval : Interval;
  event_type : string;
  query_string : string
}.

(** A call in flight, with what its callbacks captured: the discovery
    callback captures [interval]; a histogram callback captures the
    address of its cycle's arrays, the row [e] and [eventType]. *)
Inductive Call :=
| GroupBy (req : GroupByRequest) (captured_interval : Interval)
| HistogramTime (req : HistogramTimeRequest)
                (scope : nat) (e : Row) (eventType : string).

(** The closure of [OverviewReport].  [hiddenTypes] holds the own properties
    of the registry object, read with [get] and assigned with [put]. *)
Record State := {
  loading : Z;
  histogram : option Chart;
  hiddenTypes : gmap string bool;
  TIME_RANGE : string;
  scopes : list Scope;
  calls : list (nat * Call);
  next_call : nat;
  console : list string;
  unhandled : list string
}.

(** The component as created: [createSignal(0)], [histogram = undefined],
    the three built-in hidden types as the own properties of the registry
    object. *)
Definition init (time_range0 : string) : State :=
  {| loading := 0;
     histogram := None;
     hiddenTypes := <["netflow" := true]>
                      (<["stats" := true]> (<["anomaly" := true]> ∅));
     TIME_RANGE := time_range0;
     scopes := [];
     calls := [];
     next_call := 0;
     console := [];
     unhandled := [] |}.

(** *** Field updates *)

Definition setLoading (f : Z → Z) (s : State) : State :=
  {| loading := f (loading s); histogram := histogram s;
     hiddenTypes := hiddenTypes s; TIME_RANGE := TIME_RANGE s;
     scopes := scopes s; calls := calls s; next_call := next_call s;
     console := console s; unhandled := unhandled s |}.

Definition set_histogram (h : option Chart) (s : State) : State :=
  {| loading := loading s; histogram := h;
     hiddenTypes := hiddenTypes s; TIME_RANGE := TIME_RANGE s;
     scopes := scopes s; calls := calls s; next_call := next_call s;
     console := console s; unhandled := unhandled s |}.

Definition set_hiddenTypes (m : gmap string bool) (s : State) : State :=
  {| loading := loading s; histogram := histogram s;
     hiddenTypes := m; TIME_RANGE := TIME_RANGE s;
     scopes := scopes s; calls := calls s; next_call := next_call s;
     console := console s; unhandled := unhandled s |}.

Definition set_TIME_RANGE (t : string) (s : State) : State :=
  {| loading := loading s; histogram := histogram s;
     hiddenTypes := hiddenTypes s; TIME_RANGE := t;
     scopes := scopes s; calls := calls s; next_call := next_call s;
     console := console s; unhandled := unhandled s |}.

Definition set_scopes (l : list Scope) (s : State) : State :=
  {| loading := loading s; histogram := histogram s;
     hiddenTypes := hiddenTypes s; TIME_RANGE := TIME_RANGE s;
     scopes := l; calls := calls s; next_call := next_call s;
     console := console s; unhandled := unhandled s |}.

Definition set_calls (l : list (nat * Call)) (s : State) : State :=
  {| loading := loading s; histogram := histogram s;
     hiddenTypes := hiddenTypes s; TIME_RANGE := TIME_RANGE s;
     scopes := scopes s; calls := l; next_call := next_call s;
     console := console s; unhandled := unhandled s |}.

(** Start a network call: the promise joins the calls in flight under a
    fresh identifier. *)
Definition issue (c : Call) (s : State) : State :=
  {| loading := loading s; histogram := histogram s;
     hiddenTypes := hiddenTypes s; TIME_RANGE := TIME_RANGE s;
     scopes := scopes s; calls := calls s ++ [(next_call s, c)];
     next_call := S (next_call s);
     console := console s; unhandled := unhandled s |}.

Definition console_log (msg : string) (s : State) : State :=
  {| loading := loading s; histogram := histogram s;
     hiddenTypes := hiddenTypes s; TIME_RANGE := TIME_RANGE s;
     scopes := scopes s; calls := calls s; next_call := next_call s;
     console := console s ++ [msg]; unhandled := unhandled s |}.

(** A promise chain that ends rejected with no handler attached. *)
Definition unhandled_rejection (reason : string) (s : State) : State :=
  {| loading := loading s; histogram := histogram s;
     hiddenTypes := hiddenTypes s; TIME_RANGE := TIME_RANGE s;
     scopes := scopes s; calls := calls s; next_call := next_call s;
     console := console s; unhandled := unhandled s ++ [reason] |}.

(** *** Promise plumbing: [p.then(cb).finally(f)] *)

Inductive Completion :=
| Normal (s : State)
| Throw (s : State) (reason : string).

Definition then_ {A} (o : Outcome A) (cb : A → State → Completion)
  (s : State) : Completion :=
  match o with
  | Fulfilled v => cb v s
  | Rejected r => Throw s r
  end.

Definition finally_ (f : State → State) (c : Completion) : State :=
  match c with
  | Normal s => f s
  | Throw s r => unhandled_rejection r (f s)
  end.

(** *** The component's functions *)

Definition untrack {A} (fn : unit → A) : A := fn tt.

Definition buildChart (s : State) : State :=
  (* if (histogram) histogram.destroy(); histogram = new Chart(ctx, config) *)
  set_histogram (Some new_Chart) s.

Definition initChart (s : State) : State :=
  (* if (histogram) histogram.destroy(); *)
  buildChart s.

Definition refresh (s : State) : State :=
  let _ := untrack (fun _ =>
             if bool_decide (loading s > 0)%Z
             then tt   (* return: leaves the arrow function only *)
             else tt) in
  let s := setLoading (fun n => n + 1)%Z s in
  let s := initChart s in
  let timeRange := TIME_RANGE s in
  let interval := getInterval (parse_timerange timeRange) in
  issue (GroupBy {| field := "event_type";
                    size := 100;
                    gb_time_range := timeRange |} interval) s.

Definition labels_at (a : nat) (s : State) : list Z :=
  default [] (labels <$> scopes s !! a).

Definition push_eventType (a : nat) (x : string) (s : State) : State :=
  set_scopes
    (alter (fun sc => {| eventTypes := eventTypes sc ++ [x];
                         labels := labels sc |}) a (scopes s)) s.

Definition push_labels (a : nat) (xs : list Z) (s : State) : State :=
  set_scopes
    (alter (fun sc => {| eventTypes := eventTypes sc;
                         labels := labels sc ++ xs |}) a (scopes s)) s.

(** Body of the [for (const e of response.rows)] loop. *)
Definition groupBy_row (interval : Interval) (a : nat) (s : State) (e : Row)
  : State :=
  let eventType := key e in
  let s := push_eventType a eventType s in
  let s := setLoading (fun n => n + 1)%Z s in
  issue (HistogramTime {| time_range := TIME_RANGE s;
                          interval := interval;
                          event_type := key e;
                          query_string := "" |} a e eventType) s.

(** [.then] callback of [API.groupBy]. *)
Definition groupBy_then (interval : Interval) (rows : list Row) (s : State)
  : Completion :=
  let a := length (scopes s) in
  let s := set_scopes (scopes s ++ [{| eventTypes := []; labels := [] |}]) s in
  Normal (foldl (groupBy_row interval a) s rows).

(** [.then] callback of [API.histogramTime]. *)
Definition histogramTime_then (a : nat) (e : Row) (eventType : string)
  (response_data : list Point) (s : State) : Completion :=
  let fixed :=
    if decide (length (labels_at a s) = 0) then
      let s := push_labels a (time <$> response_data) s in
      match histogram s with
      | Some h => Normal (set_histogram (Some (set_labels (SharedLabels a) h)) s)
      | None => Throw s "TypeError"
      end
    else Normal s in
  match fixed with
  | Throw s r => Throw s r
  | Normal s =>
      if decide (length response_data ≠ length (labels_at a s)) then
        Normal (console_log "ERROR: Label and data mismatch" s)
      else
        let values := count <$> response_data in
        let hidden := get (hiddenTypes s) eventType in
        match histogram s with
        | Some h =>
            Normal (set_histogram
                      (Some (push_dataset {| data := values;
                                             label := key e;
                                             pointRadius := 0;
                                             hidden := hidden |} h)) s)
        | None => Throw s "TypeError"
        end
  end.

(** The legend's [onClick] handler. *)
Definition onClick (legendItem : LegendItem) (ci : Chart) (s : State)
  : State * LegendItem :=
  let eventType := text legendItem in
  let index := datasetIndex legendItem in
  if isDatasetVisible ci index then
    (set_hiddenTypes (put eventType true (hiddenTypes s))
       (set_histogram (Some (hide ci index)) s),
     {| text := text legendItem; datasetIndex := index;
        item_hidden := true |})
  else
    (set_hiddenTypes (put eventType false (hiddenTypes s))
       (set_histogram (Some (show ci index)) s),
     {| text := text legendItem; datasetIndex := index;
        item_hidden := false |}).

(** *** Events *)

(** Remove the call with identifier [id] from the calls in flight. *)
Fixpoint take_call (id : nat) (cs : list (nat * Call))
  : option (Call * list (nat * Call)) :=
  match cs with
  | [] => None
  | (i, c) :: cs' =>
      if decide (i = id) then Some (c, cs')
      else match take_call id cs' with
           | Some (c', r) => Some (c', (i, c) :: r)
           | None => None
           end
  end.

Inductive Event :=
| EvRefresh
| EvTimeRange (t : string)
| EvGroupBy (id : nat) (o : Outcome (list Row))
| EvHistogramTime (id : nat) (o : Outcome (list Point))
| EvLegendClick (index : nat).

(** One event.  [EvRefresh] is the effect's first run or the refresh
    button; [EvTimeRange] a new time-range selection, on which the effect
    runs [refresh] again; a settlement runs the [.then] callback (when
    fulfilled) and then the [.finally] callback of the call; a promise
    settles once, so a settlement for a call that is not in flight, or of
    the other kind, does not occur and leaves the state as it is. *)
Definition step (s : State) (ev : Event) : State :=
  match ev with
  | EvRefresh => refresh s
  | EvTimeRange t => refresh (set_TIME_RANGE t s)
  | EvGroupBy id o =>
      match take_call id (calls s) with
      | Some (GroupBy _ interval, rest) =>
          finally_ (setLoading (fun n => n - 1)%Z)
                   (then_ o (groupBy_then interval) (set_calls rest s))
      | _ => s
      end
  | EvHistogramTime id o =>
      match take_call id (calls s) with
      | Some (HistogramTime _ a e eventType, rest) =>
          finally_ (setLoading (fun n => n - 1)%Z)
                   (then_ o (histogramTime_then a e eventType)
                          (set_calls rest s))
      | _ => s
      end
  | EvLegendClick index =>
      match histogram s with
      | Some ci =>
          match generateLabels ci !! index with
          | Some legendItem => fst (onClick legendItem ci s)
          | None => s
          end
      | None => s
      end
  end.

Definition run (s : State) (evs : list Event) : State := foldl step s evs.

(** What the rendered chart shows. *)
Definition chart_labels (s : State) : list Z :=
  match histogram s with
  | Some ci =>
      match data_labels ci with
      | OwnLabels => []
      | SharedLabels a => labels_at a s
      end
  | None => []
  end.

Definition chart_datasets (s : State) : list Dataset :=
  match histogram s with
  | Some ci => data_datasets ci
  | None => []
  end.

(** ** Vocabulary of the properties *)

(** The histogram calls the loop issues for rows [rows], the first one
    under identifier [n]. *)
Fixpoint histogram_calls (t : string) (interval : Interval) (a n : nat)
  (rows : list Row) : list (nat * Call) :=
  match rows with
  | [] => []
  | e :: rows' =>
      (n, HistogramTime {| time_range := t; interval := interval;
                           event_type := key e; query_string := "" |}
                        a e (key e))
      :: histogram_calls t interval a (S n) rows'
  end.

(** [s'] differs from [s] at most in the counter, the calls in flight and
    the [eventTypes] arrays. *)
Record same_panel (s s' : State) : Prop := {
  same_histogram : histogram s' = histogram s;
  same_hiddenTypes : hiddenTypes s' = hiddenTypes s;
  same_TIME_RANGE : TIME_RANGE s' = TIME_RANGE s;
  same_console : console s' = console s;
  same_unhandled : unhandled s' = unhandled s;
  same_labels : ∀ b, labels_at b s' = labels_at b s;
  same_scopes : length (scopes s') = length (scopes s)
}.

(** The counter equals the number of calls in flight. *)
Definition counter_ok (s : State) : Prop :=
  loading s = Z.of_nat (length (calls s)).

(** The response passes the callback's length check: either the cycle's
    [labels] array is still empty, and is filled from this response, or the
    response has as many points as there are labels. *)
Definition merges (a : nat) (response_data : list Point) (s : State) : Prop :=
  length (labels_at a s) = 0 ∨ length response_data = length (labels_at a s).

#[global] Instance merges_dec a d s : Decision (merges a d s).
Proof. unfold merges. apply _. Defined.

(** The series built from a response for row [e]. *)
Definition series (e : Row) (eventType : string) (response_data : list Point)
  (s : State) : Dataset :=
  {| data := count <$> response_data;
     label := key e;
     pointRadius := 0;
     hidden := get (hiddenTypes s) eventType |}.

(** A histogram call in flight belongs to an existing pair of arrays and was
    issued for the key of its row. *)
Definition call_ok (n : nat) (p : nat * Call) : Prop :=
  match p.2 with
  | GroupBy _ _ => True
  | HistogramTime req a e eventType =>
      a < n ∧ event_type req = key e ∧ eventType = key e
  end.

(** Visibility overrides exist only for datasets of the chart. *)
Definition chart_ok (ci : Chart) : Prop :=
  ∀ i, is_Some (meta_hidden ci !! i) → i < length (data_datasets ci).

(** What holds of every state the component reaches. *)
Definition well_formed (s : State) : Prop :=
  (calls s ≠ [] → is_Some (histogram s))
  ∧ Forall (call_ok (length (scopes s))) (calls s)
  ∧ (∀ ci, histogram s = Some ci → chart_ok ci).

Definition is_click (ev : Event) : Prop :=
  match ev with
  | EvLegendClick _ => True
  | _ => False
  end.

(** A legend click on series [i] flips the series in the rendered chart and
    flips the registry entry of its label, and touches nothing else. *)
Definition click_toggles (s : State) (i : nat) : Prop :=
  ∀ ci item,
    histogram s = Some ci →
    generateLabels ci !! i = Some item →
    let s' := step s (EvLegendClick i) in
    (∃ ci', histogram s' = Some ci'
            ∧ isDatasetVisible ci' i = negb (isDatasetVisible ci i)
            ∧ ∀ j, j ≠ i → isDatasetVisible ci' j = isDatasetVisible ci j)
    ∧ truthy (get (hiddenTypes s') (text item))
      = negb (truthy (get (hiddenTypes s) (text item)))
    ∧ (∀ k, k ≠ text item → hiddenTypes s' !! k = hiddenTypes s !! k)
    ∧ loading s' = loading s
    ∧ calls s' = calls s.

(** Whether series [i] of the chart is rendered. *)
Definition chart_visible (s : State) (i : nat) : bool :=
  match histogram s with
  | Some ci => isDatasetVisible ci i
  | None => false
  end.

(** A call of the cycle whose discovery call is [d] and whose histogram
    calls were given the identifiers from [lo] up to [hi]. *)
Definition issued_by_cycle (d lo hi : nat) (p : nat * Call) : Prop :=
  p.1 = d ∨ (lo ≤ p.1 ∧ p.1 < hi).

#[global] Instance issued_by_cycle_dec d lo hi p :
  Decision (issued_by_cycle d lo hi p).
Proof. unfold issued_by_cycle. apply _. Defined.





(** A rejected discovery call [id] leaves a message on the console, starts
    no call, and takes one off the counter. *)
Definition discovery_failure_reported (s : State) (id : nat) (reason : string)
  : Prop :=
  let s' := step s (EvGroupBy id (Rejected reason)) in
  console s' ≠ console s
  ∧ (∀ p, p ∈ calls s' → p ∈ calls s)
  ∧ loading s' = (loading s - 1)%Z.

End Controller.

(** ** Scenarios

    Concrete responses and event sequences used to run the component. *)
Module Scenario.

Definition alert : Row := {| key := "alert"; doc_count := 50 |}.
Definition dns : Row := {| key := "dns"; doc_count := 10 |}.
Definition stats : Row := {| key := "stats"; doc_count := 7 |}.

Definition point (t c : Z) : Point := {| time := t; count := c |}.

(** One cycle, both histogram responses still to come. *)
Definition discovered : list Event :=
  [EvRefresh; EvGroupBy 0 (Fulfilled [alert; dns])].

(** One cycle in which the first histogram response has no points. *)
Definition empty_first : list Event :=
  discovered ++ [EvHistogramTime 1 (Fulfilled [])].

(** Two cycles, the second started by a new time-range selection before the
    first one's discovery call settles. *)
Definition range_changed : list Event :=
  [EvRefresh; EvTimeRange "24h"; EvGroupBy 0 (Fulfilled [alert])].


(** A full cycle: one histogram call fails, the other succeeds. *)
Definition settled : list Event :=
  [EvGroupBy 0 (Fulfilled [alert; dns]);
   EvHistogramTime 2 (Rejected "timeout");
   EvHistogramTime 1 (Fulfilled [point 100 5; point 200 7])].


(** Rows whose keys name properties of [Object.prototype]. *)
Definition proto : Row := {| key := "__proto__"; doc_count := 3 |}.
Definition constructor : Row := {| key := "constructor"; doc_count := 3 |}.

(** One cycle with the single series [__proto__] merged, then a click on
    it. *)
Definition proto_clicked : list Event :=
  [EvRefresh; EvGroupBy 0 (Fulfilled [proto]);
   EvHistogramTime 1 (Fulfilled [point 100 1]);
   EvLegendClick 0].

(** A second cycle that rediscovers [__proto__] and merges its series. *)
Definition proto_again : list Event :=
  [EvRefresh; EvGroupBy 2 (Fulfilled [proto]);
   EvHistogramTime 3 (Fulfilled [point 100 1])].

(** One cycle with the single series [constructor] merged. *)
Definition constructor_merged : list Event :=
  [EvRefresh; EvGroupBy 0 (Fulfilled [constructor]);
   EvHistogramTime 1 (Fulfilled [point 100 9])].

(** A cycle that has merged the [dns] series; the [alert] call is still in
    flight. *)
Definition one_series : list Event :=
  discovered ++ [EvHistogramTime 2 (Fulfilled [point 100 1; point 200 2])].

(** What follows a click: the old cycle's last call fails, a new cycle
    starts and rediscovers [dns]. *)
Definition next_cycle : list Event :=
  [EvHistogramTime 1 (Rejected "timeout");
   EvRefresh;
   EvGroupBy 3 (Fulfilled [dns])].

End Scenario.

(** ** Further vocabulary *)

Section Vocabulary.

Context {Interval : Type}.

(** Every series is rendered as a read of its label on the registry says. *)
Definition in_sync (s : State (Interval := Interval)) : Prop :=
  ∀ ci i ds,
    histogram s = Some ci →
    data_datasets ci !! i = Some ds →
    isDatasetVisible ci i = negb (truthy (get (hiddenTypes s) (label ds))).

(** The labels of the series are pairwise distinct and none of them is
    [__proto__]. *)
Definition plain_labels (l : list Dataset) : Prop :=
  NoDup (label <$> l) ∧ "__proto__" ∉ label <$> l.

(** The settlement of a call by rejection. *)
Definition is_rejection (ev : Event) : Prop :=
  match ev with
  | EvGroupBy _ (Rejected _) | EvHistogramTime _ (Rejected _) => True
  | _ => False
  end.

(** An event that runs [refresh]. *)
Definition is_restart (ev : Event) : Prop :=
  match ev with
  | EvRefresh | EvTimeRange _ => True
  | _ => False
  end.

(** A call in flight that is a histogram call of the cycle whose arrays are
    at [a]. *)
Definition of_cycle (a : nat) (p : nat * Call (Interval := Interval)) : Prop :=
  match p.2 with
  | HistogramTime _ b _ _ => b = a
  | GroupBy _ _ => False
  end.

(** The chart of a cycle that runs alone: only the cycle's histogram calls
    are in flight, and either nothing has been merged and the labels are not
    fixed, or the chart shows the cycle's labels and each of its series has
    as many values. *)
Definition aligned (a : nat) (s : State (Interval := Interval)) : Prop :=
  Forall (of_cycle a) (calls s)
  ∧ ∃ ci, histogram s = Some ci
      ∧ ((data_labels ci = OwnLabels ∧ labels_at a s = []
          ∧ data_datasets ci = [])
         ∨ (data_labels ci = SharedLabels a ∧ labels_at a s ≠ []
            ∧ data_datasets ci ≠ []
            ∧ Forall (fun ds => length (data ds) = length (labels_at a s))
                     (data_datasets ci))).

(** An event that neither runs [refresh] nor delivers a histogram response
    without points. *)
Definition within_cycle (ev : Event) : Prop :=
  match ev with
  | EvRefresh | EvTimeRange _ => False
  | EvHistogramTime _ (Fulfilled []) => False
  | _ => True
  end.

End Vocabulary.

(** ** The lifetime of chart objects

    [initChart] and [buildChart] with [destroy] and [new Chart] made
    explicit.  Charts are numbered in the order of their creation; [alive]
    holds the charts created and not destroyed since. *)
Module Lifetime.

Record Canvas := {
  histogram : option nat;
  alive : gset nat;
  created : nat
}.


Definition destroy (c : nat) (s : Canvas) : Canvas :=
  {| histogram := histogram s;
     alive := alive s ∖ {[c]};
     created := created s |}.

(** [histogram = new Chart(ctx, config)] *)
Definition new_Chart (s : Canvas) : Canvas :=
  {| histogram := Some (created s);
     alive := alive s ∪ {[created s]};
     created := S (created s) |}.

Definition buildChart (s : Canvas) : Canvas :=
  let s := match histogram s with
           | Some c => destroy c s
           | None => s
           end in
  new_Chart s.

Definition initChart (s : Canvas) : Canvas :=
  let s := match histogram s with
           | Some c => destroy c s
           | None => s
           end in
  buildChart s.



End Lifetime.

(** * Properties *)

(** ** Reading and writing the registry *)

Lemma put_lookup_eq k b (o : gmap string bool) :
  k ≠ "__proto__" → put k b o !! k = Some b.
Proof.
  intros Hk. unfold put. rewrite bool_decide_eq_false_2 by tauto.
  apply lookup_insert_eq.
Qed.

Lemma put_lookup_ne k k' b (o : gmap string bool) :
  k' ≠ k → put k b o !! k' = o !! k'.
Proof.
  intros Hk. unfold put. case_bool_decide; [done|].
  by apply lookup_insert_ne.
Qed.

Lemma get_put_eq k b (o : gmap string bool) :
  k ≠ "__proto__" → get (put k b o) k = Bool b.
Proof. intros Hk. unfold get. by rewrite put_lookup_eq. Qed.

Lemma get_put_ne k k' b (o : gmap string bool) :
  k' ≠ k → get (put k b o) k' = get o k'.
Proof. intros Hk. unfold get. by rewrite put_lookup_ne. Qed.

Lemma put_is_Some k k' b (o : gmap string bool) :
  is_Some (o !! k') → is_Some (put k b o !! k').
Proof.
  intros Hk'. unfold put. case_bool_decide; [done|].
  destruct (decide (k = k')) as [->|Hne].
  - rewrite lookup_insert_eq. by eexists.
  - by rewrite lookup_insert_ne.
Qed.

Section Properties.

Context {Range Interval : Type}.
Context (parse_timerange : string → Range) (getInterval : Range → Interval).

Abbreviation State := (State (Interval := Interval)).
Abbreviation Call := (Call (Interval := Interval)).
Abbreviation step := (step parse_timerange getInterval).
Abbreviation run := (run parse_timerange getInterval).
Abbreviation refresh := (refresh parse_timerange getInterval).

Implicit Types (s : State) (ev : Event) (evs : list Event).

(** ** Calls in flight *)

Lemma take_call_length id (cs : list (nat * Call)) c r :
  take_call id cs = Some (c, r) → length cs = S (length r).
Proof.
  revert c r. induction cs as [|[i c0] cs IH]; intros c r; simpl; [done|].
  case_decide.
  - intros [= <- <-]. done.
  - destruct (take_call id cs) as [[c' r']|] eqn:E; [|done].
    intros [= <- <-]. simpl. f_equal. by eapply IH.
Qed.

Lemma take_call_elem id (cs : list (nat * Call)) c r :
  take_call id cs = Some (c, r) → (id, c) ∈ cs.
Proof.
  revert c r. induction cs as [|[i c0] cs IH]; intros c r; simpl; [done|].
  case_decide.
  - intros [= <- <-]. subst. apply list_elem_of_here.
  - destruct (take_call id cs) as [[c' r']|] eqn:E; [|done].
    intros [= <- <-]. apply list_elem_of_further. by eapply IH.
Qed.

Lemma take_call_rest id (cs : list (nat * Call)) c r x :
  take_call id cs = Some (c, r) → x ∈ r → x ∈ cs.
Proof.
  revert c r. induction cs as [|[i c0] cs IH]; intros c r; simpl; [done|].
  case_decide.
  - intros [= <- <-] Hx. by apply list_elem_of_further.
  - destruct (take_call id cs) as [[c' r']|] eqn:E; [|done].
    intros [= <- <-] Hx. apply elem_of_cons in Hx as [->|Hx].
    + apply list_elem_of_here.
    + apply list_elem_of_further. by eapply IH.
Qed.

(** ** The discovery callback's loop *)


Lemma histogram_calls_length t (interval : Interval) a n rows :
  length (histogram_calls t interval a n rows) = length rows.
Proof. revert n. induction rows; intros; simpl; auto. Qed.

Lemma histogram_calls_requests t (interval : Interval) a n rows :
  (snd <$> histogram_calls t interval a n rows)
  = (fun e => HistogramTime {| time_range := t; interval := interval;
                               event_type := key e; query_string := "" |}
                            a e (key e)) <$> rows.
Proof. revert n. induction rows; intros; simpl; [done|]. by rewrite IHrows. Qed.

Lemma labels_at_push_eventType b a x s :
  labels_at b (push_eventType a x s) = labels_at b s.
Proof.
  unfold labels_at, push_eventType. simpl.
  destruct (decide (a = b)) as [->|Hne].
  - rewrite list_lookup_alter_eq. by destruct (scopes s !! b).
  - by rewrite list_lookup_alter_ne.
Qed.


Lemma groupBy_rows_spec (interval : Interval) a rows s :
  let s' := foldl (groupBy_row interval a) s rows in
  loading s' = (loading s + Z.of_nat (length rows))%Z
  ∧ calls s'
    = calls s ++ histogram_calls (TIME_RANGE s) interval a (next_call s) rows
  ∧ same_panel s s'.
Proof.
  revert s. induction rows as [|e rows IH]; intros s; simpl.
  - split_and!; [lia | by rewrite app_nil_r | by split].
  - destruct (IH (groupBy_row interval a s e)) as (Hl & Hc & Hp).
    split_and!.
    + rewrite Hl. simpl. lia.
    + rewrite Hc. simpl. by rewrite <- app_assoc.
    + destruct Hp as [? ? ? ? ? Hlab Hsc]. split; try done.
      * intros b. rewrite Hlab. apply labels_at_push_eventType.
      * rewrite Hsc. simpl. by rewrite length_alter.
Qed.

(** ** The counter counts the calls in flight *)


Lemma refresh_counter_ok s : counter_ok s → counter_ok (refresh s).
Proof.
  unfold counter_ok. simpl. intros ->. rewrite length_app. simpl. lia.
Qed.

Lemma finally_loading (c : Completion (Interval := Interval)) f :
  loading (finally_ f c)
  = match c with Normal s | Throw s _ => loading (f s) end.
Proof. by destruct c. Qed.

Lemma finally_calls (c : Completion (Interval := Interval)) f :
  (∀ s, calls (f s) = calls s) →
  calls (finally_ f c) = match c with Normal s | Throw s _ => calls s end.
Proof. intros Hf. destruct c; simpl; auto. Qed.

Lemma histogramTime_then_frame a e eventType response_data s :
  match histogramTime_then a e eventType response_data s with
  | Normal s' | Throw s' _ =>
      loading s' = loading s ∧ calls s' = calls s
      ∧ hiddenTypes s' = hiddenTypes s ∧ TIME_RANGE s' = TIME_RANGE s
      ∧ next_call s' = next_call s
      ∧ (is_Some (histogram s) → is_Some (histogram s'))
  end.
Proof.
  unfold histogramTime_then.
  repeat (case_decide || case_match); simplify_eq/=; split_and!;
    try done; eauto.
Qed.

Lemma step_counter_ok s ev : counter_ok s → counter_ok (step s ev).
Proof.
  intros Hs. destruct ev as [|t|id o|id o|i]; simpl.
  - by apply refresh_counter_ok.
  - by apply refresh_counter_ok.
  - destruct (take_call id (calls s)) as [[[req interval|] rest]|] eqn:E;
      try done.
    apply take_call_length in E. unfold counter_ok in *.
    rewrite finally_loading, finally_calls by done.
    destruct o as [rows|r]; simpl.
    + destruct (groupBy_rows_spec interval (length (scopes s)) rows
                  (set_scopes (scopes s ++ [{| eventTypes := []; labels := [] |}])
                              (set_calls rest s))) as (Hl & Hc & _).
      simpl in *. rewrite Hl, Hc, length_app, histogram_calls_length. lia.
    + lia.
  - destruct (take_call id (calls s)) as [[[|req a e et] rest]|] eqn:E;
      try done.
    apply take_call_length in E. unfold counter_ok in *.
    rewrite finally_loading, finally_calls by done.
    destruct o as [d|r]; simpl.
    + pose proof (histogramTime_then_frame a e et d (set_calls rest s)) as H.
      destruct (histogramTime_then a e et d (set_calls rest s));
        destruct H as (Hl & Hc & _); simpl in *; rewrite Hl, Hc; lia.
    + lia.
  - destruct (histogram s) as [ci|]; [|done].
    destruct (generateLabels ci !! i) as [item|]; [|done].
    unfold onClick. by destruct (isDatasetVisible ci (datasetIndex item)).
Qed.

Lemma run_counter_ok s evs : counter_ok s → counter_ok (run s evs).
Proof.
  revert s. induction evs as [|ev evs IH]; intros s Hs; simpl; [done|].
  apply IH. by apply step_counter_ok.
Qed.

Lemma init_counter_ok t : counter_ok (init t : State).
Proof. reflexivity. Qed.

(** ** Merging one histogram response *)


Lemma labels_at_push_labels a xs s :
  a < length (scopes s) →
  labels_at a (push_labels a xs s) = labels_at a s ++ xs.
Proof.
  intros Ha. unfold labels_at, push_labels. simpl.
  rewrite list_lookup_alter_eq.
  destruct (lookup_lt_is_Some_2 _ _ Ha) as [sc ->]. done.
Qed.

Lemma labels_at_push_labels_ne a b xs s :
  b ≠ a → labels_at b (push_labels a xs s) = labels_at b s.
Proof.
  intros Hne. unfold labels_at, push_labels. simpl.
  by rewrite list_lookup_alter_ne.
Qed.


Lemma histogramTime_then_spec a e eventType d s h :
  a < length (scopes s) →
  histogram s = Some h →
  ∃ s', histogramTime_then a e eventType d s = Normal s'
    ∧ labels_at a s'
      = (if decide (length (labels_at a s) = 0)
         then time <$> d else labels_at a s)
    ∧ (∀ b, b ≠ a → labels_at b s' = labels_at b s)
    ∧ histogram s'
      = Some (let h1 := if decide (length (labels_at a s) = 0)
                        then set_labels (SharedLabels a) h else h in
              if decide (merges a d s)
              then push_dataset (series e eventType d s) h1 else h1)
    ∧ console s'
      = (if decide (merges a d s) then console s
         else console s ++ ["ERROR: Label and data mismatch"])
    ∧ loading s' = loading s ∧ calls s' = calls s
    ∧ hiddenTypes s' = hiddenTypes s ∧ unhandled s' = unhandled s
    ∧ length (scopes s') = length (scopes s).
Proof.
  intros Ha Hh. unfold histogramTime_then.
  destruct (decide (length (labels_at a s) = 0)) as [H0|Hn0].
  - destruct (decide (merges a d s)) as [_|Hn]; [|exfalso; apply Hn; by left].
    simpl. rewrite Hh. simpl.
    assert (Hl : labels_at a
                   (set_histogram (Some (set_labels (SharedLabels a) h))
                      (push_labels a (time <$> d) s)) = time <$> d).
    { change (labels_at a (push_labels a (time <$> d) s) = time <$> d).
      rewrite labels_at_push_labels by done.
      apply nil_length_inv in H0. by rewrite H0. }
    rewrite Hl, length_fmap.
    destruct (decide (length d ≠ length d)) as [?|_]; [done|].
    simpl. eexists. split; [done|]. simpl.
    split_and!; try done.
    + intros b Hb. by apply labels_at_push_labels_ne.
    + apply length_alter.
  - destruct (decide (length d ≠ length (labels_at a s))) as [Hne|Heq].
    + destruct (decide (merges a d s)) as [[?|?]|_]; [done|done|].
      eexists. split; [done|]. simpl. split_and!; done.
    + destruct (decide (merges a d s)) as [_|Hn].
      2:{ exfalso. apply Hn. right.
          by destruct (decide (length d = length (labels_at a s))). }
      rewrite Hh. eexists. split; [done|]. simpl. split_and!; done.
Qed.

(** ** Reachable states are well formed *)

Lemma call_ok_mono n m (p : nat * Call) : n ≤ m → call_ok n p → call_ok m p.
Proof.
  unfold call_ok. destruct p as [id [req iv|req a e et]]; simpl; [done|].
  intros ? (? & ? & ?). split_and!; [lia|done|done].
Qed.

Lemma histogram_calls_ok t (interval : Interval) a n k rows :
  a < n → Forall (call_ok n) (histogram_calls t interval a k rows).
Proof.
  intros Ha. revert k. induction rows as [|e rows IH]; intros k; simpl.
  - constructor.
  - constructor; [|apply IH]. unfold call_ok. simpl. done.
Qed.

Lemma take_call_Forall (P : nat * Call → Prop) id cs c r :
  take_call id cs = Some (c, r) → Forall P cs → Forall P r ∧ P (id, c).
Proof.
  intros E H. rewrite Forall_forall in H. split.
  - apply Forall_forall. intros x Hx. apply H. by eapply take_call_rest.
  - apply H. by eapply take_call_elem.
Qed.

Lemma take_call_nonempty id (cs : list (nat * Call)) c r :
  take_call id cs = Some (c, r) → cs ≠ [].
Proof. by destruct cs. Qed.

Lemma init_well_formed t : well_formed (init t : State).
Proof. split_and!; [done | constructor | done]. Qed.

Lemma new_Chart_ok : chart_ok new_Chart.
Proof. intros i [x Hx]. simpl in Hx. by rewrite lookup_empty in Hx. Qed.

Lemma refresh_well_formed s : well_formed s → well_formed (refresh s).
Proof.
  intros (_ & Hc & _). split_and!; simpl.
  - by eexists.
  - apply Forall_app. split; [done|]. by repeat constructor.
  - intros ci [= <-]. apply new_Chart_ok.
Qed.

Lemma setDatasetVisibility_ok ci i v :
  i < length (data_datasets ci) → chart_ok ci →
  chart_ok (setDatasetVisibility ci i v).
Proof.
  intros Hi Hok j. unfold setDatasetVisibility. simpl.
  destruct (decide (i = j)) as [<-|Hne]; [done|].
  rewrite lookup_insert_ne by done. apply Hok.
Qed.

Lemma generateLabels_lookup ci i item :
  generateLabels ci !! i = Some item →
  ∃ ds, data_datasets ci !! i = Some ds
        ∧ text item = label ds ∧ datasetIndex item = i.
Proof.
  unfold generateLabels. rewrite list_lookup_imap.
  destruct (data_datasets ci !! i) as [ds|]; simpl; [|done].
  intros [= <-]. by exists ds.
Qed.

Lemma step_well_formed s ev : well_formed s → well_formed (step s ev).
Proof.
  intros Hwf. destruct ev as [|t|id o|id o|i]; simpl.
  - by apply refresh_well_formed.
  - apply refresh_well_formed. exact Hwf.
  - destruct (take_call id (calls s)) as [[[req interval|] rest]|] eqn:E;
      try done.
    destruct Hwf as (Hh & Hc & Hm).
    pose proof (take_call_nonempty _ _ _ _ E) as Hne.
    destruct (take_call_Forall _ _ _ _ _ E Hc) as [Hrest _].
    destruct o as [rows|r]; simpl.
    + destruct (groupBy_rows_spec interval (length (scopes s)) rows
                  (set_scopes (scopes s ++ [{| eventTypes := []; labels := [] |}])
                              (set_calls rest s))) as (_ & Hcalls & Hp).
      destruct Hp as [Hhist _ _ _ _ _ Hsc]. simpl in *.
      rewrite length_app in Hsc. simpl in Hsc.
      split_and!; simpl.
      * intros _. rewrite Hhist. auto.
      * rewrite Hcalls, Hsc. apply Forall_app. split.
        -- eapply Forall_impl; [exact Hrest|].
           intros p. apply call_ok_mono. lia.
        -- apply histogram_calls_ok. lia.
      * rewrite Hhist. exact Hm.
    + split_and!; simpl; auto.
  - destruct (take_call id (calls s)) as [[[|req a e et] rest]|] eqn:E;
      try done.
    destruct Hwf as (Hh & Hc & Hm).
    pose proof (take_call_nonempty _ _ _ _ E) as Hne.
    destruct (take_call_Forall _ _ _ _ _ E Hc) as [Hrest (Ha & _)].
    simpl in Ha.
    destruct o as [d|r]; simpl.
    + destruct (Hh Hne) as [h Hhist].
      destruct (histogramTime_then_spec a e et d (set_calls rest s) h Ha Hhist)
        as (s' & -> & _ & _ & Hh' & _ & _ & Hcalls & _ & _ & Hsc).
      simpl in Hcalls, Hsc. split_and!; simpl.
      * rewrite Hh'. by eexists.
      * by rewrite Hcalls, Hsc.
      * rewrite Hh'. intros ci [= <-].
        specialize (Hm h Hhist).
        intros j Hj.
        repeat case_decide; simpl in *; rewrite ?length_app; simpl;
          specialize (Hm j Hj); lia.
    + split_and!; simpl; auto.
  - destruct (histogram s) as [ci|] eqn:Hci; [|done].
    destruct (generateLabels ci !! i) as [item|] eqn:Hi; [|done].
    destruct Hwf as (Hh & Hc & Hm).
    destruct (generateLabels_lookup _ _ _ Hi) as (ds & Hds & _ & Hidx).
    apply lookup_lt_Some in Hds.
    unfold onClick.
    destruct (isDatasetVisible ci (datasetIndex item)); simpl;
      (split_and!; simpl;
       [ by eexists | done
       | intros ? [= <-]; apply setDatasetVisibility_ok;
         [by rewrite Hidx | by apply Hm] ]).
Qed.

Lemma run_well_formed s evs : well_formed s → well_formed (run s evs).
Proof.
  revert s. induction evs as [|ev evs IH]; intros s Hs; simpl; [done|].
  apply IH. by apply step_well_formed.
Qed.

Lemma reachable_well_formed t evs : well_formed (run (init t) evs).
Proof. apply run_well_formed, init_well_formed. Qed.

(** ** What one settlement does *)

Lemma step_groupBy_fulfilled s id req interval rest rows :
  take_call id (calls s) = Some (GroupBy req interval, rest) →
  let s' := step s (EvGroupBy id (Fulfilled rows)) in
  calls s'
  = rest ++ histogram_calls (TIME_RANGE s) interval (length (scopes s))
                            (next_call s) rows
  ∧ loading s' = (loading s + Z.of_nat (length rows) - 1)%Z
  ∧ histogram s' = histogram s
  ∧ hiddenTypes s' = hiddenTypes s
  ∧ console s' = console s
  ∧ unhandled s' = unhandled s.
Proof.
  intros E. simpl. rewrite E. simpl.
  destruct (groupBy_rows_spec interval (length (scopes s)) rows
              (set_scopes (scopes s ++ [{| eventTypes := []; labels := [] |}])
                          (set_calls rest s))) as (Hl & Hc & Hp).
  destruct Hp as [? ? ? ? ? _ _]. simpl in *.
  split_and!; try done. rewrite Hl. lia.
Qed.

Lemma step_groupBy_rejected s id req interval rest reason :
  take_call id (calls s) = Some (GroupBy req interval, rest) →
  let s' := step s (EvGroupBy id (Rejected reason)) in
  calls s' = rest
  ∧ loading s' = (loading s - 1)%Z
  ∧ histogram s' = histogram s
  ∧ hiddenTypes s' = hiddenTypes s
  ∧ console s' = console s
  ∧ unhandled s' = unhandled s ++ [reason].
Proof. intros E. simpl. rewrite E. simpl. done. Qed.

Lemma step_histogramTime_fulfilled s id req a e et rest d :
  well_formed s →
  take_call id (calls s) = Some (HistogramTime req a e et, rest) →
  ∃ h, histogram s = Some h ∧
    let s' := step s (EvHistogramTime id (Fulfilled d)) in
    labels_at a s'
    = (if decide (length (labels_at a s) = 0)
       then time <$> d else labels_at a s)
    ∧ (∀ b, b ≠ a → labels_at b s' = labels_at b s)
    ∧ histogram s'
      = Some (let h1 := if decide (length (labels_at a s) = 0)
                        then set_labels (SharedLabels a) h else h in
              if decide (merges a d s)
              then push_dataset (series e et d s) h1 else h1)
    ∧ console s'
      = (if decide (merges a d s) then console s
         else console s ++ ["ERROR: Label and data mismatch"])
    ∧ loading s' = (loading s - 1)%Z
    ∧ calls s' = rest
    ∧ hiddenTypes s' = hiddenTypes s
    ∧ unhandled s' = unhandled s.
Proof.
  intros (Hh & Hc & _) E.
  pose proof (take_call_nonempty _ _ _ _ E) as Hne.
  destruct (take_call_Forall _ _ _ _ _ E Hc) as [_ (Ha & _)]. simpl in Ha.
  destruct (Hh Hne) as [h Hhist]. exists h. split; [done|].
  simpl. rewrite E. simpl.
  destruct (histogramTime_then_spec a e et d (set_calls rest s) h Ha Hhist)
    as (s' & -> & Hl & Hlb & Hh' & Hcon & Hload & Hcalls & Hhid & Hun & _).
  simpl. split_and!; try done. by rewrite Hload.
Qed.

Lemma step_histogramTime_rejected s id req a e et rest reason :
  take_call id (calls s) = Some (HistogramTime req a e et, rest) →
  let s' := step s (EvHistogramTime id (Rejected reason)) in
  calls s' = rest
  ∧ loading s' = (loading s - 1)%Z
  ∧ histogram s' = histogram s
  ∧ scopes s' = scopes s
  ∧ hiddenTypes s' = hiddenTypes s
  ∧ console s' = console s
  ∧ unhandled s' = unhandled s ++ [reason].
Proof. intros E. simpl. rewrite E. simpl. done. Qed.

(** ** Only a legend click writes the registry *)

Lemma refresh_hiddenTypes s : hiddenTypes (refresh s) = hiddenTypes s.
Proof. reflexivity. Qed.

Lemma step_hiddenTypes s ev :
  ¬ is_click ev → hiddenTypes (step s ev) = hiddenTypes s.
Proof.
  intros Hev. destruct ev as [|t|id o|id o|i]; simpl; try done.
  - destruct (take_call id (calls s)) as [[[req interval|] rest]|] eqn:E;
      try done.
    destruct o as [rows|r]; simpl; [|done].
    destruct (groupBy_rows_spec interval (length (scopes s)) rows
                (set_scopes (scopes s ++ [{| eventTypes := []; labels := [] |}])
                            (set_calls rest s))) as (_ & _ & Hp).
    by destruct Hp.
  - destruct (take_call id (calls s)) as [[[|req a e et] rest]|] eqn:E;
      try done.
    destruct o as [d|r]; simpl; [|done].
    pose proof (histogramTime_then_frame a e et d (set_calls rest s)) as H.
    destruct (histogramTime_then a e et d (set_calls rest s));
      destruct H as (_ & _ & Hh & _); simpl in *; done.
Qed.

Lemma run_hiddenTypes s evs :
  Forall (fun ev => ¬ is_click ev) evs →
  hiddenTypes (run s evs) = hiddenTypes s.
Proof.
  revert s. induction evs as [|ev evs IH]; intros s Hevs; simpl; [done|].
  apply Forall_cons in Hevs as [Hev Hevs].
  rewrite IH by done. by apply step_hiddenTypes.
Qed.

(** ** A legend click *)

Lemma step_click s ci i item :
  histogram s = Some ci →
  generateLabels ci !! i = Some item →
  step s (EvLegendClick i)
  = set_hiddenTypes (put (text item) (isDatasetVisible ci i) (hiddenTypes s))
      (set_histogram
         (Some (setDatasetVisibility ci i (negb (isDatasetVisible ci i)))) s).
Proof.
  intros Hci Hi. simpl. rewrite Hci, Hi.
  destruct (generateLabels_lookup _ _ _ Hi) as (ds & _ & _ & Hidx).
  unfold onClick. rewrite Hidx.
  by destruct (isDatasetVisible ci i).
Qed.

Lemma isDatasetVisible_set ci i v j :
  isDatasetVisible (setDatasetVisibility ci i v) j
  = if decide (i = j)
    then match data_datasets ci !! j with Some _ => v | None => false end
    else isDatasetVisible ci j.
Proof.
  unfold isDatasetVisible, setDatasetVisibility. simpl.
  case_decide as Hij.
  - subst. rewrite lookup_insert_eq.
    destruct (data_datasets ci !! j); [|done]. by destruct v.
  - by rewrite lookup_insert_ne.
Qed.

Lemma step_histogramTime_merged s id req a e et rest d :
  well_formed s →
  take_call id (calls s) = Some (HistogramTime req a e et, rest) →
  merges a d s →
  event_type req = key e ∧ et = key e
  ∧ ∃ ci', histogram (step s (EvHistogramTime id (Fulfilled d))) = Some ci'
      ∧ data_datasets ci' = chart_datasets s ++ [series e et d s]
      ∧ isDatasetVisible ci' (length (chart_datasets s))
        = negb (truthy (get (hiddenTypes s) et)).
Proof.
  intros Hwf E Hm.
  destruct (step_histogramTime_fulfilled s id req a e et rest d Hwf E)
    as (h & Hh & _ & _ & Hh' & _).
  destruct Hwf as (_ & Hc & Hok).
  destruct (take_call_Forall _ _ _ _ _ E Hc) as [_ (_ & Hk & Het)].
  simpl in Hk, Het. split_and!; [done|done|].
  eexists. split; [exact Hh'|]. simpl.
  rewrite decide_True by done.
  unfold chart_datasets. rewrite Hh.
  specialize (Hok h Hh).
  assert (meta_hidden h !! length (data_datasets h) = None) as Hmeta.
  { destruct (meta_hidden h !! length (data_datasets h)) eqn:Hl; [|done].
    assert (length (data_datasets h) < length (data_datasets h)); [|lia].
    apply Hok. by eexists. }
  case_decide; simpl; (split; [done|]);
    unfold isDatasetVisible; simpl;
    by rewrite list_lookup_middle, Hmeta.
Qed.

Lemma step_histogramTime_dropped s id req a e et rest d :
  well_formed s →
  take_call id (calls s) = Some (HistogramTime req a e et, rest) →
  ¬ merges a d s →
  let s' := step s (EvHistogramTime id (Fulfilled d)) in
  chart_datasets s' = chart_datasets s
  ∧ chart_labels s' = chart_labels s
  ∧ console s' = console s ++ ["ERROR: Label and data mismatch"].
Proof.
  intros Hwf E Hm.
  destruct (step_histogramTime_fulfilled s id req a e et rest d Hwf E)
    as (h & Hh & Hl & Hlb & Hh' & Hcon & _).
  cbv zeta in *.
  destruct (decide (merges a d s)) as [?|_]; [done|].
  destruct (decide (length (labels_at a s) = 0)) as [?|_];
    [exfalso; apply Hm; by left|].
  split_and!; [| |done].
  - unfold chart_datasets. by rewrite Hh', Hh.
  - unfold chart_labels. rewrite Hh', Hh.
    destruct (data_labels h) as [|b]; [done|].
    destruct (decide (b = a)) as [->|Hne]; [done|]. by apply Hlb.
Qed.

(** A merged series has as many values as the cycle's [labels] array holds
    once the response has been handled. *)
Lemma merged_series_length s id req a e et rest d :
  well_formed s →
  take_call id (calls s) = Some (HistogramTime req a e et, rest) →
  merges a d s →
  length (data (series e et d s))
  = length (labels_at a (step s (EvHistogramTime id (Fulfilled d)))).
Proof.
  intros Hwf E Hm.
  destruct (step_histogramTime_fulfilled s id req a e et rest d Hwf E)
    as (h & _ & Hl & _).
  cbv zeta in Hl. rewrite Hl. simpl. rewrite length_fmap.
  case_decide as H0; [by rewrite length_fmap|].
  by destruct Hm.
Qed.

(** Once a cycle's [labels] array holds a label, no event changes it. *)
Lemma labels_stay_once_set s ev a :
  labels_at a s ≠ [] → labels_at a (step s ev) = labels_at a s.
Proof.
  intros Hne. destruct ev as [|t|id o|id o|i]; simpl; try done.
  - destruct (take_call id (calls s)) as [[[req interval|] rest]|] eqn:E;
      try done.
    destruct o as [rows|r]; simpl; [|done].
    destruct (groupBy_rows_spec interval (length (scopes s)) rows
                (set_scopes (scopes s ++ [{| eventTypes := []; labels := [] |}])
                            (set_calls rest s))) as (_ & _ & Hp).
    destruct Hp as [_ _ _ _ _ Hlab _].
    change (labels_at a
              (foldl (groupBy_row interval (length (scopes s)))
                 (set_scopes (scopes s ++ [{| eventTypes := []; labels := [] |}])
                    (set_calls rest s)) rows) = labels_at a s).
    rewrite Hlab. unfold labels_at in *. simpl.
    destruct (scopes s !! a) as [sc|] eqn:Ha; [|done].
    by rewrite (lookup_app_l_Some _ _ _ _ Ha).
  - destruct (take_call id (calls s)) as [[[|req b e et] rest]|] eqn:E;
      try done.
    destruct o as [d|r]; simpl; [|done].
    unfold histogramTime_then.
    destruct (decide (length (labels_at b (set_calls rest s)) = 0))
      as [H0|Hn0].
    + assert (a ≠ b) as Hab.
      { intros ->. apply Hne. by apply nil_length_inv. }
      simpl. destruct (histogram s); simpl;
        repeat case_decide; simpl; unfold labels_at; simpl;
        by rewrite list_lookup_alter_ne.
    + simpl. destruct (histogram s); repeat case_decide; done.
  - destruct (histogram s) as [ci|]; [|done].
    destruct (generateLabels ci !! i) as [item|]; [|done].
    unfold onClick. by destruct (isDatasetVisible ci (datasetIndex item)).
Qed.

Lemma refresh_unconditional s :
  loading (refresh s) = (loading s + 1)%Z
  ∧ histogram (refresh s) = Some new_Chart
  ∧ calls (refresh s)
    = calls s ++ [(next_call s,
                   GroupBy {| field := "event_type"; size := 100;
                              gb_time_range := TIME_RANGE s |}
                           (getInterval (parse_timerange (TIME_RANGE s))))].
Proof. done. Qed.

(** ** The claims *)

(** C1 (the code departs from it).  A [refresh] while [loading] is positive
    is meant to do nothing.  Here it runs with [loading = 1], one series on
    the chart and one histogram call in flight: the counter goes to 2, the
    chart is rebuilt empty, and a second discovery call is issued. *)
Theorem refresh_while_loading_runs :
  let s := run (init "1h")
             (Scenario.discovered
                ++ [EvHistogramTime 1 (Fulfilled [Scenario.point 100 5])]) in
  loading s = 1%Z
  ∧ length (chart_datasets s) = 1
  ∧ length (calls s) = 1
  ∧ loading (refresh s) = 2%Z
  ∧ chart_datasets (refresh s) = []
  ∧ calls (refresh s)
    = calls s ++ [(3, GroupBy {| field := "event_type"; size := 100;
                                 gb_time_range := "1h" |}
                              (getInterval (parse_timerange "1h")))].
Proof. vm_compute. by split_and!. Qed.

(** C2 (the code departs from it).  The labels of a cycle are meant to be
    those of the response merged first.  When that response has no points
    the next response sets the labels again: the first merged response has
    the empty [time] sequence, the final labels are [100; 200]. *)
Theorem labels_set_again_after_empty_response :
  let s1 := run (init "1h") Scenario.empty_first in
  let s2 := step s1 (EvHistogramTime 2
                       (Fulfilled [Scenario.point 100 5;
                                   Scenario.point 200 7])) in
  length (chart_datasets s1) = 1
  ∧ chart_labels s1 = time <$> []
  ∧ chart_labels s2 = [100; 200]%Z
  ∧ calls s2 = []
  ∧ loading s2 = 0%Z.
Proof. vm_compute. by split_and!. Qed.

(** C3 (the code departs from it).  Every series of the final chart is
    meant to have as many values as there are labels.  After an empty first
    response and a second one with two points, the chart holds a series with
    no values under two labels. *)
Theorem empty_series_under_two_labels :
  let s := run (init "1h")
             (Scenario.empty_first
                ++ [EvHistogramTime 2
                      (Fulfilled [Scenario.point 100 5;
                                  Scenario.point 200 7])]) in
  calls s = []
  ∧ chart_labels s = [100; 200]%Z
  ∧ data <$> chart_datasets s = [[]; [5; 7]%Z]
  ∧ ∃ ds, ds ∈ chart_datasets s
          ∧ length (data ds) ≠ length (chart_labels s).
Proof.
  vm_compute. split_and!; try done.
  eexists. split; [apply list_elem_of_here|]. simpl. lia.
Qed.



(** C5 (the code departs from it).  A visibility toggled by a legend click
    is meant to be the visibility of the category's series in the next
    cycle, for every category key.  For the key [__proto__] the series is
    created hidden, the click shows it, the assignment to the registry is
    ignored, and the next cycle creates the series hidden again. *)
Theorem toggle_lost_for_proto_key :
  let s0 := run (init "1h")
              [EvRefresh; EvGroupBy 0 (Fulfilled [Scenario.proto]);
               EvHistogramTime 1 (Fulfilled [Scenario.point 100 1])] in
  let s1 := run (init "1h") Scenario.proto_clicked in
  let s2 := run s1 Scenario.proto_again in
  label <$> chart_datasets s0 = ["__proto__"]
  ∧ chart_visible s0 0 = false
  ∧ chart_visible s1 0 = true
  ∧ hiddenTypes s1 = hiddenTypes s0
  ∧ label <$> chart_datasets s2 = ["__proto__"]
  ∧ hidden <$> chart_datasets s2 = [Inherited]
  ∧ chart_visible s2 0 = false.
Proof. vm_compute. by split_and!. Qed.

(** X16.  After a legend click on a series whose label is not [__proto__],
    whatever refreshes, range changes and settlements follow, the registry
    is what the click left; and when a histogram response for the clicked
    label is then merged, its series is created with the hidden flag the
    click recorded, so it is rendered with the toggled visibility. *)
Theorem visibility_survives_refresh
  (t0 : string) evs0 ci i item evs id req a e rest d :
  let s := run (init t0) evs0 in
  histogram s = Some ci →
  generateLabels ci !! i = Some item →
  text item ≠ "__proto__" →
  let s1 := step s (EvLegendClick i) in
  Forall (fun ev => ¬ is_click ev) evs →
  let s2 := run s1 evs in
  take_call id (calls s2) = Some (HistogramTime req a e (text item), rest) →
  merges a d s2 →
  let s3 := step s2 (EvHistogramTime id (Fulfilled d)) in
  hiddenTypes s2 = hiddenTypes s1
  ∧ hiddenTypes s3 = hiddenTypes s1
  ∧ ∃ ci3, histogram s3 = Some ci3
      ∧ data_datasets ci3
        = chart_datasets s2
            ++ [{| data := count <$> d; label := text item; pointRadius := 0;
                   hidden := Bool (isDatasetVisible ci i) |}]
      ∧ isDatasetVisible ci3 (length (chart_datasets s2))
        = negb (isDatasetVisible ci i).
Proof.
  intros s Hci Hi Hproto s1 Hevs s2 E Hm s3.
  assert (well_formed s2) as Hwf.
  { apply run_well_formed, step_well_formed, reachable_well_formed. }
  assert (get (hiddenTypes s1) (text item) = Bool (isDatasetVisible ci i))
    as Hreg.
  { unfold s1. rewrite (step_click s ci i item Hci Hi). simpl.
    by apply get_put_eq. }
  assert (hiddenTypes s2 = hiddenTypes s1) as H2.
  { by apply run_hiddenTypes. }
  destruct (step_histogramTime_merged s2 id req a e (text item) rest d Hwf E Hm)
    as (_ & Hkey & ci3 & Hh3 & Hds & Hvis).
  split_and!; [done| |].
  - unfold s3. rewrite step_hiddenTypes by (simpl; tauto). done.
  - exists ci3. split_and!; [done| |].
    + rewrite Hds. unfold series. by rewrite H2, Hreg, <- Hkey.
    + by rewrite Hvis, H2, Hreg.
Qed.

(** C6 (the code departs from it).  The histogram calls of a cycle are
    meant to carry the time range of the cycle's discovery call.  The
    discovery callback reads the ambient selection again: the first cycle's
    discovery call carries ["1h"], the selection changes to ["24h"], and the
    first cycle's histogram call (identifier 2) then carries ["24h"] together
    with the interval computed for ["1h"]. *)
Theorem histogram_call_reads_ambient_range :
  calls (run (init "1h") [EvRefresh])
  = [(0, GroupBy {| field := "event_type"; size := 100;
                    gb_time_range := "1h" |}
                 (getInterval (parse_timerange "1h")))]
  ∧ calls (run (init "1h") Scenario.range_changed)
    = [(1, GroupBy {| field := "event_type"; size := 100;
                      gb_time_range := "24h" |}
                   (getInterval (parse_timerange "24h")));
       (2, HistogramTime {| time_range := "24h";
                            interval := getInterval (parse_timerange "1h");
                            event_type := "alert";
                            query_string := "" |}
                         0 Scenario.alert "alert")].
Proof. vm_compute. by split. Qed.

(** The calls a fulfilled discovery call issues: one per row, in the order
    of the rows, each for its row's key, with the interval captured at the
    start of the cycle and the time range selected at the moment the
    response is handled. *)
Lemma discovery_issues_histogram_calls s id req interval rest rows :
  take_call id (calls s) = Some (GroupBy req interval, rest) →
  snd <$> calls (step s (EvGroupBy id (Fulfilled rows)))
  = (snd <$> rest)
    ++ ((fun e => HistogramTime {| time_range := TIME_RANGE s;
                                   interval := interval;
                                   event_type := key e;
                                   query_string := "" |}
                                (length (scopes s)) e (key e)) <$> rows).
Proof.
  intros E.
  destruct (step_groupBy_fulfilled s id req interval rest rows E) as (-> & _).
  by rewrite fmap_app, histogram_calls_requests.
Qed.

(** C7 (the code departs from it).  A category key without an entry in the
    registry is meant to get a visible series.  The key [constructor] has no
    entry, yet the read on the registry object finds the function inherited
    from [Object.prototype], and the series is created hidden. *)
Theorem inherited_key_series_hidden :
  let s := run (init "1h") Scenario.constructor_merged in
  hiddenTypes (init "1h" : State) !! "constructor" = None
  ∧ hiddenTypes s !! "constructor" = None
  ∧ label <$> chart_datasets s = ["constructor"]
  ∧ hidden <$> chart_datasets s = [Inherited]
  ∧ chart_visible s 0 = false.
Proof. vm_compute. by split_and!. Qed.

(** X17.  When a histogram response is merged, the series appended is
    labelled with the category key of its call, holds the response's counts
    in order, and carries as its hidden flag what a read of that key on the
    registry object gives; it is rendered hidden exactly when that value is
    truthy.  A key that has no entry and does not name a property of
    [Object.prototype] is rendered visible.  The registry of the panel as
    created has the entries [anomaly], [stats] and [netflow], all [true],
    and no other. *)
Theorem merged_series (t0 : string) evs id req a e et rest d :
  let s := run (init t0) evs in
  take_call id (calls s) = Some (HistogramTime req a e et, rest) →
  merges a d s →
  let k := event_type req in
  (∃ ci', histogram (step s (EvHistogramTime id (Fulfilled d))) = Some ci'
      ∧ data_datasets ci'
        = chart_datasets s
            ++ [{| data := count <$> d; label := k; pointRadius := 0;
                   hidden := get (hiddenTypes s) k |}]
      ∧ isDatasetVisible ci' (length (chart_datasets s))
        = negb (truthy (get (hiddenTypes s) k))
      ∧ (hiddenTypes s !! k = None → k ∉ Object_prototype →
         isDatasetVisible ci' (length (chart_datasets s)) = true))
  ∧ ∀ k', hiddenTypes (init t0 : State) !! k'
          = if bool_decide (k' ∈ ["anomaly"; "stats"; "netflow"])
            then Some true else None.
Proof.
  intros s E Hm k. split.
  - destruct (step_histogramTime_merged s id req a e et rest d
                (reachable_well_formed t0 evs) E Hm)
      as (Hk & Het & ci' & Hh & Hds & Hvis).
    assert (et = k) as -> by (unfold k; congruence).
    exists ci'. split_and!; try done.
    + rewrite Hds. unfold series. by rewrite <- Hk.
    + intros Hnone Hnp. rewrite Hvis. unfold get. rewrite Hnone.
      by rewrite bool_decide_eq_false_2.
  - intros k'. simpl.
    destruct (decide (k' = "netflow")) as [->|H1]; [done|].
    destruct (decide (k' = "stats")) as [->|H2]; [done|].
    destruct (decide (k' = "anomaly")) as [->|H3]; [done|].
    rewrite !lookup_insert_ne, lookup_empty by done.
    rewrite bool_decide_eq_false_2; [done|].
    rewrite !elem_of_cons, elem_of_nil. tauto.
Qed.

(** C8 (amended).  When the discovery call of a cycle is rejected, the
    component writes nothing to the console: no rejection handler is
    attached, and the rejection leaves the promise chain unhandled.  No
    histogram call is issued: the calls in flight are the earlier ones less
    the discovery call.  The counter goes down by 1, and the chart and the
    registry stay as they are. *)
Theorem discovery_failure s id req interval rest reason :
  take_call id (calls s) = Some (GroupBy req interval, rest) →
  let s' := step s (EvGroupBy id (Rejected reason)) in
  console s' = console s
  ∧ unhandled s' = unhandled s ++ [reason]
  ∧ calls s' = rest
  ∧ (∀ p, p ∈ calls s' → p ∈ calls s)
  ∧ loading s' = (loading s - 1)%Z
  ∧ histogram s' = histogram s
  ∧ hiddenTypes s' = hiddenTypes s.
Proof.
  intros E s'.
  destruct (step_groupBy_rejected s id req interval rest reason E)
    as (Hc & Hl & Hh & Hr & Hcon & Hun).
  split_and!; try done.
  intros p Hp. unfold s' in Hp. rewrite Hc in Hp. by eapply take_call_rest.
Qed.


(** C10.  Whatever refreshes, range changes, settlements and clicks have
    occurred since the panel was created, the counter equals the number of
    calls in flight (each call was counted when issued and is taken off
    when it settles), and so it is never negative. *)
Theorem loading_never_negative (t0 : string) evs :
  let s := run (init t0) evs in
  loading s = Z.of_nat (length (calls s)) ∧ (0 ≤ loading s)%Z.
Proof.
  intros s.
  pose proof (run_counter_ok (init t0) evs (init_counter_ok t0)) as Hk.
  unfold counter_ok in Hk. fold s in Hk. split; [done|]. rewrite Hk. lia.
Qed.

End Properties.

(** ** The claims on concrete runs *)

Abbreviation run0 := (run (fun t : string => t) (fun r : string => r)).
Abbreviation step0 := (step (fun t : string => t) (fun r : string => r)).
Abbreviation refresh0 := (refresh (fun t : string => t) (fun r : string => r)).
Abbreviation panel0 := (init (Interval := string) "1h").



Lemma visibility_survives_refresh_witness :
  Forall (fun ev => ¬ is_click ev) Scenario.next_cycle
  ∧ merges 1 [Scenario.point 100 3]
      (run0 (step0 (run0 panel0 Scenario.one_series) (EvLegendClick 0))
            Scenario.next_cycle)
  ∧ ∃ ci3,
      histogram
        (step0 (run0 (step0 (run0 panel0 Scenario.one_series)
                            (EvLegendClick 0))
                     Scenario.next_cycle)
               (EvHistogramTime 4 (Fulfilled [Scenario.point 100 3])))
      = Some ci3
      ∧ data_datasets ci3
        = [{| data := [3%Z]; label := "dns"; pointRadius := 0;
              hidden := Bool true |}]
      ∧ isDatasetVisible ci3 0 = false.
Proof.
  assert (Forall (fun ev => ¬ is_click ev) Scenario.next_cycle) as Hevs.
  { repeat constructor; simpl; tauto. }
  assert (merges 1 [Scenario.point 100 3]
            (run0 (step0 (run0 panel0 Scenario.one_series) (EvLegendClick 0))
                  Scenario.next_cycle)) as Hm.
  { left. vm_compute. reflexivity. }
  split_and!; [exact Hevs | exact Hm |].
  edestruct (fun ci item req =>
               visibility_survives_refresh (fun t => t) (fun r => r)
                 "1h" Scenario.one_series ci 0 item Scenario.next_cycle
                 4 req 1 Scenario.dns [] [Scenario.point 100 3])
    as (_ & _ & ci3 & H1 & H2 & H3);
    [vm_compute; reflexivity | vm_compute; reflexivity
    | simpl; discriminate | exact Hevs
    | vm_compute; reflexivity | exact Hm |].
  assert (length (chart_datasets
                    (run0 (step0 (run0 panel0 Scenario.one_series)
                                 (EvLegendClick 0))
                          Scenario.next_cycle)) = 0) as Hlen.
  { vm_compute. reflexivity. }
  rewrite Hlen in H3.
  exists ci3. split_and!; [exact H1 | | ].
  - rewrite H2. vm_compute. reflexivity.
  - rewrite H3. vm_compute. reflexivity.
Defined.

Lemma merged_series_witness :
  merges 0 [Scenario.point 100 9]
    (run0 panel0 [EvRefresh; EvGroupBy 0 (Fulfilled [Scenario.stats])])
  ∧ ∃ ci',
      histogram
        (step0 (run0 panel0
                  [EvRefresh; EvGroupBy 0 (Fulfilled [Scenario.stats])])
               (EvHistogramTime 1 (Fulfilled [Scenario.point 100 9])))
      = Some ci'
      ∧ data_datasets ci'
        = [{| data := [9%Z]; label := "stats"; pointRadius := 0;
              hidden := Bool true |}]
      ∧ isDatasetVisible ci' 0 = false.
Proof.
  assert (merges 0 [Scenario.point 100 9]
            (run0 panel0 [EvRefresh; EvGroupBy 0 (Fulfilled [Scenario.stats])]))
    as Hm.
  { left. vm_compute. reflexivity. }
  split; [exact Hm|].
  edestruct (fun req et =>
               merged_series (fun t => t) (fun r => r) "1h"
                 [EvRefresh; EvGroupBy 0 (Fulfilled [Scenario.stats])]
                 1 req 0 Scenario.stats et [] [Scenario.point 100 9])
    as ((ci' & H1 & H2 & H3 & _) & _);
    [vm_compute; reflexivity | exact Hm |].
  assert (length (chart_datasets
                    (run0 panel0
                       [EvRefresh; EvGroupBy 0 (Fulfilled [Scenario.stats])]))
          = 0) as Hlen.
  { vm_compute. reflexivity. }
  rewrite Hlen in H3.
  exists ci'. split_and!; [exact H1 | | ].
  - rewrite H2. vm_compute. reflexivity.
  - rewrite H3. vm_compute. reflexivity.
Defined.

Lemma discovery_failure_witness :
  take_call 0 (calls (refresh0 panel0))
  = Some (GroupBy {| field := "event_type"; size := 100;
                     gb_time_range := "1h" |} "1h", [])
  ∧ console (step0 (refresh0 panel0) (EvGroupBy 0 (Rejected "503"))) = []
  ∧ unhandled (step0 (refresh0 panel0) (EvGroupBy 0 (Rejected "503")))
    = ["503"]
  ∧ calls (step0 (refresh0 panel0) (EvGroupBy 0 (Rejected "503"))) = []
  ∧ loading (step0 (refresh0 panel0) (EvGroupBy 0 (Rejected "503"))) = 0%Z.
Proof.
  split; [vm_compute; reflexivity|].
  edestruct (fun req interval =>
               discovery_failure (fun t => t) (fun r => r)
                 (refresh0 panel0) 0 req interval [] "503")
    as (H1 & H2 & H3 & _ & H4 & _);
    [vm_compute; reflexivity|].
  split_and!; [exact H1 | exact H2 | exact H3 | exact H4].
Defined.

(** The failure of the discovery call puts nothing on the console. *)
Lemma discovery_failure_not_reported :
  ¬ discovery_failure_reported (fun t => t) (fun r => r)
      (refresh0 panel0) 0 "503".
Proof. intros (Hcon & _). apply Hcon. vm_compute. reflexivity. Qed.



(** * Further properties *)

Section Further.

Context {Range Interval : Type}.
Context (parse_timerange : string → Range) (getInterval : Range → Interval).

Abbreviation State := (State (Interval := Interval)).
Abbreviation Call := (Call (Interval := Interval)).
Abbreviation step := (step parse_timerange getInterval).
Abbreviation run := (run parse_timerange getInterval).
Abbreviation refresh := (refresh parse_timerange getInterval).

Implicit Types (s : State) (ev : Event) (evs : list Event).

(** ** More on the calls in flight *)

Lemma take_call_app id (cs : list (nat * Call)) c r x :
  take_call id cs = Some (c, r) → take_call id (cs ++ x) = Some (c, r ++ x).
Proof.
  revert c r. induction cs as [|[i c0] cs IH]; intros c r; simpl; [done|].
  case_decide.
  - by intros [= <- <-].
  - destruct (take_call id cs) as [[c' r']|] eqn:E; [|done].
    intros [= <- <-]. by rewrite (IH _ _ eq_refl).
Qed.

Lemma take_call_other id id' (cs : list (nat * Call)) c r c' :
  take_call id cs = Some (c, r) → id' ≠ id → (id', c') ∈ cs → (id', c') ∈ r.
Proof.
  revert c r. induction cs as [|[i c0] cs IH]; intros c r; simpl; [done|].
  case_decide.
  - intros [= <- <-] Hne Hin. apply elem_of_cons in Hin as [[= ? ?]|Hin];
      [congruence|done].
  - destruct (take_call id cs) as [[c1 r1]|] eqn:E; [|done].
    intros [= <- <-] Hne Hin. apply elem_of_cons in Hin as [Heq|Hin].
    + rewrite Heq. apply list_elem_of_here.
    + apply list_elem_of_further. by eapply IH.
Qed.

(** Two different calls can be taken in either order, with the same calls
    left. *)
Lemma take_call_comm id1 id2 (cs : list (nat * Call)) c1 r1 c2 r2 :
  id1 ≠ id2 →
  take_call id1 cs = Some (c1, r1) →
  take_call id2 cs = Some (c2, r2) →
  ∃ r, take_call id2 r1 = Some (c2, r) ∧ take_call id1 r2 = Some (c1, r).
Proof.
  intros Hne. revert c1 r1 c2 r2.
  induction cs as [|[i c0] cs IH]; intros c1 r1 c2 r2; simpl; [done|].
  destruct (decide (i = id1)) as [E1|H1]; destruct (decide (i = id2)) as [E2|H2];
    [congruence| | |].
  - intros [= <- <-].
    destruct (take_call id2 cs) as [[c' r']|] eqn:E; [|done].
    intros [= <- <-]. exists r'. split; [done|]. simpl.
    by rewrite decide_True.
  - destruct (take_call id1 cs) as [[c' r']|] eqn:E; [|done].
    intros [= <- <-] [= <- <-]. exists r'. split; [|done]. simpl.
    by rewrite decide_True.
  - destruct (take_call id1 cs) as [[c1' r1']|] eqn:E1; [|done].
    destruct (take_call id2 cs) as [[c2' r2']|] eqn:E2; [|done].
    intros [= <- <-] [= <- <-].
    destruct (IH _ _ _ _ eq_refl eq_refl) as (r & Hr1 & Hr2).
    exists ((i, c0) :: r). simpl.
    rewrite !decide_False by done. by rewrite Hr1, Hr2.
Qed.

Lemma run_app s evs evs' : run s (evs ++ evs') = run (run s evs) evs'.
Proof. apply foldl_app. Qed.

Lemma run_labels_stay s evs a :
  labels_at a s ≠ [] → labels_at a (run s evs) = labels_at a s.
Proof.
  revert s. induction evs as [|ev evs IH]; intros s Hne; simpl; [done|].
  pose proof (labels_stay_once_set parse_timerange getInterval s ev a Hne) as H.
  rewrite IH; [done|]. by rewrite H.
Qed.

(** ** Discovery *)

(** X1.  A fulfilled discovery call issues one histogram call per row, in the
    order of the rows, each for its row's key, with the interval captured
    when the cycle started and the time range selected when the response is
    handled.  All of them share one new, empty [labels] array; the arrays of
    earlier cycles keep their labels.  The counter goes up by the number of
    rows and down by one; the chart, the registry and the console are left
    alone. *)
Theorem discovery_fan_out s id req interval rest rows :
  take_call id (calls s) = Some (GroupBy req interval, rest) →
  let s' := step s (EvGroupBy id (Fulfilled rows)) in
  let a := length (scopes s) in
  snd <$> calls s'
  = (snd <$> rest)
    ++ ((fun e => HistogramTime {| time_range := TIME_RANGE s;
                                   interval := interval;
                                   event_type := key e;
                                   query_string := "" |} a e (key e))
          <$> rows)
  ∧ loading s' = (loading s + Z.of_nat (length rows) - 1)%Z
  ∧ labels_at a s' = []
  ∧ (∀ b, b < a → labels_at b s' = labels_at b s)
  ∧ histogram s' = histogram s
  ∧ hiddenTypes s' = hiddenTypes s
  ∧ console s' = console s
  ∧ unhandled s' = unhandled s.
Proof.
  intros E s' a.
  destruct (step_groupBy_fulfilled parse_timerange getInterval
              s id req interval rest rows E)
    as (Hc & Hl & Hh & Hr & Hcon & Hun).
  assert (∀ b, labels_at b s'
               = labels_at b
                   (set_scopes (scopes s ++ [{| eventTypes := []; labels := [] |}])
                               (set_calls rest s))) as Hlab.
  { intros b. unfold s'. simpl. rewrite E. simpl.
    destruct (groupBy_rows_spec interval (length (scopes s)) rows
                (set_scopes (scopes s ++ [{| eventTypes := []; labels := [] |}])
                            (set_calls rest s))) as (_ & _ & Hp).
    destruct Hp as [_ _ _ _ _ Hlab _]. apply Hlab. }
  split_and!; try done.
  - unfold s'. by rewrite Hc, fmap_app, histogram_calls_requests.
  - rewrite Hlab. unfold labels_at, a. simpl.
    by rewrite list_lookup_middle.
  - intros b Hb. rewrite Hlab. unfold labels_at. simpl.
    by rewrite lookup_app_l.
Qed.

(** ** Histogram responses *)

(** X2.  A response whose point count differs from the number of labels already
    fixed for its cycle is dropped: the chart keeps its series and labels,
    the message is logged once, and the call still comes off the counter. *)
Theorem mismatched_response_dropped (t0 : string) evs id req a e et rest d :
  let s := run (init t0) evs in
  take_call id (calls s) = Some (HistogramTime req a e et, rest) →
  labels_at a s ≠ [] →
  length d ≠ length (labels_at a s) →
  let s' := step s (EvHistogramTime id (Fulfilled d)) in
  chart_datasets s' = chart_datasets s
  ∧ chart_labels s' = chart_labels s
  ∧ labels_at a s' = labels_at a s
  ∧ console s' = console s ++ ["ERROR: Label and data mismatch"]
  ∧ loading s' = (loading s - 1)%Z
  ∧ calls s' = rest
  ∧ hiddenTypes s' = hiddenTypes s
  ∧ unhandled s' = unhandled s.
Proof.
  intros s E Hne Hlen s'.
  pose proof (reachable_well_formed parse_timerange getInterval t0 evs) as Hwf.
  assert (¬ merges a d s) as Hm.
  { intros [H0|H1]; [|done]. apply Hne. by apply nil_length_inv. }
  destruct (step_histogramTime_dropped parse_timerange getInterval
              s id req a e et rest d Hwf E Hm) as (Hd & Hl & Hc).
  destruct (step_histogramTime_fulfilled parse_timerange getInterval
              s id req a e et rest d Hwf E)
    as (h & _ & _ & _ & _ & _ & Hload & Hcalls & Hreg & Hun).
  split_and!; try done.
  apply (labels_stay_once_set parse_timerange getInterval). done.
Qed.

(** X3.  A rejected histogram call adds nothing to the chart and logs nothing;
    the rejection is left unhandled, the call comes off the counter, and
    every other call in flight stays in flight. *)
Theorem histogram_failure s id req a e et rest reason :
  take_call id (calls s) = Some (HistogramTime req a e et, rest) →
  let s' := step s (EvHistogramTime id (Rejected reason)) in
  chart_datasets s' = chart_datasets s
  ∧ chart_labels s' = chart_labels s
  ∧ console s' = console s
  ∧ unhandled s' = unhandled s ++ [reason]
  ∧ loading s' = (loading s - 1)%Z
  ∧ hiddenTypes s' = hiddenTypes s
  ∧ (∀ id' c', id' ≠ id → (id', c') ∈ calls s → (id', c') ∈ calls s')
  ∧ (∀ p, p ∈ calls s' → p ∈ calls s).
Proof.
  intros E s'.
  destruct (step_histogramTime_rejected parse_timerange getInterval
              s id req a e et rest reason E)
    as (Hc & Hl & Hh & Hsc & Hr & Hcon & Hun).
  subst s'. split_and!; try done.
  - unfold chart_datasets. by rewrite Hh.
  - unfold chart_labels, labels_at. by rewrite Hh, Hsc.
  - intros id' c' Hne Hin. rewrite Hc. by eapply take_call_other.
  - intros p Hp. rewrite Hc in Hp. by eapply take_call_rest.
Qed.

(** X4.  The first response of a cycle that has points fixes the cycle's labels
    for good: the chart shows the response's times, and whatever happens
    afterwards the cycle's [labels] array keeps them. *)
Theorem nonempty_response_fixes_labels
  (t0 : string) evs id req a e et rest d evs' :
  let s := run (init t0) evs in
  take_call id (calls s) = Some (HistogramTime req a e et, rest) →
  labels_at a s = [] →
  d ≠ [] →
  let s' := step s (EvHistogramTime id (Fulfilled d)) in
  chart_labels s' = time <$> d
  ∧ labels_at a (run s' evs') = time <$> d.
Proof.
  intros s E H0 Hd s'.
  pose proof (reachable_well_formed parse_timerange getInterval t0 evs) as Hwf.
  destruct (step_histogramTime_fulfilled parse_timerange getInterval
              s id req a e et rest d Hwf E)
    as (h & Hh & Hl & _ & Hh' & _).
  cbv zeta in Hl, Hh'. subst s'.
  destruct (decide (length (labels_at a s) = 0)) as [_|Hn];
    [|by rewrite H0 in Hn].
  assert (time <$> d ≠ []) as Hne by (by destruct d).
  split.
  - unfold chart_labels. rewrite Hh'. by case_decide.
  - rewrite run_labels_stay; [done|]. by rewrite Hl.
Qed.

(** Everything a merged response changes. *)
Lemma merge_step s id req a e et rest d :
  well_formed s →
  take_call id (calls s) = Some (HistogramTime req a e et, rest) →
  merges a d s →
  let s' := step s (EvHistogramTime id (Fulfilled d)) in
  chart_datasets s' = chart_datasets s ++ [series e et d s]
  ∧ chart_labels s'
    = (if decide (length (labels_at a s) = 0)
       then time <$> d else chart_labels s)
  ∧ labels_at a s'
    = (if decide (length (labels_at a s) = 0)
       then time <$> d else labels_at a s)
  ∧ loading s' = (loading s - 1)%Z
  ∧ calls s' = rest
  ∧ console s' = console s
  ∧ hiddenTypes s' = hiddenTypes s.
Proof.
  intros Hwf E Hm s'.
  destruct (step_histogramTime_fulfilled parse_timerange getInterval
              s id req a e et rest d Hwf E)
    as (h & Hh & Hl & Hlb & Hh' & Hcon & Hload & Hcalls & Hreg & _).
  cbv zeta in Hl, Hlb, Hh', Hcon, Hload, Hcalls, Hreg. subst s'.
  destruct (decide (merges a d s)) as [_|?]; [|done].
  split_and!; try done.
  - unfold chart_datasets. rewrite Hh', Hh. by case_decide.
  - unfold chart_labels. rewrite Hh', Hh. simpl.
    case_decide; simpl; [done|].
    destruct (data_labels h) as [|b]; [done|].
    destruct (decide (b = a)) as [->|Hne]; [done|]. by apply Hlb.
Qed.

(** X5.  Two responses of one cycle, of the same non-zero length, arriving when
    the cycle's labels are not fixed yet: in either order both series are
    merged, in the order of arrival; the labels are the times of the one
    that arrived first; the counter, the calls in flight and the console
    end the same. *)
Theorem arrival_order
  (t0 : string) evs id1 id2 req1 req2 a e1 e2 et1 et2 r1 r2 d1 d2 :
  let s := run (init t0) evs in
  id1 ≠ id2 →
  take_call id1 (calls s) = Some (HistogramTime req1 a e1 et1, r1) →
  take_call id2 (calls s) = Some (HistogramTime req2 a e2 et2, r2) →
  labels_at a s = [] →
  d1 ≠ [] →
  length d1 = length d2 →
  let s12 := step (step s (EvHistogramTime id1 (Fulfilled d1)))
                  (EvHistogramTime id2 (Fulfilled d2)) in
  let s21 := step (step s (EvHistogramTime id2 (Fulfilled d2)))
                  (EvHistogramTime id1 (Fulfilled d1)) in
  chart_datasets s12
  = chart_datasets s ++ [series e1 et1 d1 s; series e2 et2 d2 s]
  ∧ chart_datasets s21
    = chart_datasets s ++ [series e2 et2 d2 s; series e1 et1 d1 s]
  ∧ chart_labels s12 = time <$> d1
  ∧ chart_labels s21 = time <$> d2
  ∧ loading s12 = (loading s - 2)%Z
  ∧ loading s21 = (loading s - 2)%Z
  ∧ calls s12 = calls s21
  ∧ console s12 = console s
  ∧ console s21 = console s.
Proof.
  intros s Hne E1 E2 H0 Hd1 Hlen s12 s21.
  pose proof (reachable_well_formed parse_timerange getInterval t0 evs) as Hwf.
  destruct (take_call_comm _ _ _ _ _ _ _ Hne E1 E2) as (r & Hr1 & Hr2).
  assert (d2 ≠ []) as Hd2 by (intros ->; by destruct d1).
  assert (∀ (d d' : list Point) s1,
            d ≠ [] → length d = length d' →
            labels_at a s1 = time <$> d →
            length (labels_at a s1) ≠ 0 ∧ merges a d' s1) as Hnext.
  { intros d d' s1 Hd Hl Hs1. rewrite Hs1, length_fmap. split.
    - by destruct d.
    - right. by rewrite Hs1, length_fmap. }
  assert (merges a d1 s ∧ merges a d2 s) as [Hm1 Hm2].
  { split; left; by rewrite H0. }
  (* first [id1], then [id2] *)
  destruct (merge_step s id1 req1 a e1 et1 r1 d1 Hwf E1 Hm1)
    as (Hds1 & Hcl1 & Hl1 & Hld1 & Hc1 & Hcon1 & Hreg1).
  cbv zeta in *. rewrite H0 in Hcl1, Hl1. simpl in Hcl1, Hl1.
  pose proof (step_well_formed parse_timerange getInterval s
                (EvHistogramTime id1 (Fulfilled d1)) Hwf) as Hwf1.
  destruct (Hnext d1 d2 _ Hd1 Hlen Hl1) as [Hn1 Hm12].
  rewrite <- Hc1 in Hr1.
  destruct (merge_step _ id2 req2 a e2 et2 r d2 Hwf1 Hr1 Hm12)
    as (Hds12 & Hcl12 & _ & Hld12 & Hc12 & Hcon12 & _).
  cbv zeta in *. rewrite decide_False in Hcl12 by done.
  (* first [id2], then [id1] *)
  destruct (merge_step s id2 req2 a e2 et2 r2 d2 Hwf E2 Hm2)
    as (Hds2 & Hcl2 & Hl2 & Hld2 & Hc2 & Hcon2 & Hreg2).
  cbv zeta in *. rewrite H0 in Hcl2, Hl2. simpl in Hcl2, Hl2.
  pose proof (step_well_formed parse_timerange getInterval s
                (EvHistogramTime id2 (Fulfilled d2)) Hwf) as Hwf2.
  destruct (Hnext d2 d1 _ Hd2 (eq_sym Hlen) Hl2) as [Hn2 Hm21].
  rewrite <- Hc2 in Hr2.
  destruct (merge_step _ id1 req1 a e1 et1 r d1 Hwf2 Hr2 Hm21)
    as (Hds21 & Hcl21 & _ & Hld21 & Hc21 & Hcon21 & _).
  cbv zeta in *. rewrite decide_False in Hcl21 by done.
  subst s12 s21. split_and!.
  - rewrite Hds12, Hds1, <- app_assoc. unfold series. by rewrite Hreg1.
  - rewrite Hds21, Hds2, <- app_assoc. unfold series. by rewrite Hreg2.
  - by rewrite Hcl12.
  - by rewrite Hcl21.
  - rewrite Hld12, Hld1. lia.
  - rewrite Hld21, Hld2. lia.
  - by rewrite Hc12, Hc21.
  - by rewrite Hcon12.
  - by rewrite Hcon21.
Qed.

(** ** Refresh does not cancel *)

(** X6.  A histogram call in flight when [refresh] runs again stays in flight,
    and its response is merged into the rebuilt chart: it becomes the only
    series there.  If its cycle's labels were not fixed yet, the new chart
    takes the response's times as labels; if they were, the new chart shows
    the series under no labels at all. *)
Theorem stale_response_lands_on_new_chart
  (t0 : string) evs ev0 id req a e et rest d :
  let s := run (init t0) evs in
  is_restart ev0 →
  take_call id (calls s) = Some (HistogramTime req a e et, rest) →
  merges a d s →
  let s' := step (step s ev0) (EvHistogramTime id (Fulfilled d)) in
  chart_datasets s' = [series e et d s]
  ∧ (labels_at a s = [] → chart_labels s' = time <$> d)
  ∧ (labels_at a s ≠ [] → chart_labels s' = [])
  ∧ loading s' = loading s
  ∧ console s' = console s.
Proof.
  intros s Hev E Hm s'.
  pose proof (reachable_well_formed parse_timerange getInterval t0 evs) as Hwf.
  pose proof (step_well_formed parse_timerange getInterval s ev0 Hwf) as Hwf0.
  assert (∃ x, calls (step s ev0) = calls s ++ [x]
               ∧ scopes (step s ev0) = scopes s
               ∧ histogram (step s ev0) = Some new_Chart
               ∧ hiddenTypes (step s ev0) = hiddenTypes s
               ∧ loading (step s ev0) = (loading s + 1)%Z
               ∧ console (step s ev0) = console s) as (x & Hc & Hsc & Hh & Hr & Hl & Hcon).
  { destruct ev0; try done; eexists; by split_and!. }
  assert (∀ b, labels_at b (step s ev0) = labels_at b s) as Hlab.
  { intros b. unfold labels_at. by rewrite Hsc. }
  assert (merges a d (step s ev0)) as Hm0.
  { unfold merges. by rewrite Hlab. }
  pose proof (take_call_app id _ _ _ [x] E) as E0. rewrite <- Hc in E0.
  destruct (merge_step _ id req a e et (rest ++ [x]) d Hwf0 E0 Hm0)
    as (Hds & Hcl & _ & Hld & _ & Hcon' & _).
  cbv zeta in *. subst s'. rewrite Hlab in Hcl.
  split_and!.
  - rewrite Hds. unfold chart_datasets, series. by rewrite Hh, Hr.
  - intros H0. rewrite Hcl, H0. done.
  - intros Hne. rewrite Hcl, decide_False.
    + unfold chart_labels. by rewrite Hh.
    + intros H0. apply Hne. by apply nil_length_inv.
  - rewrite Hld, Hl. lia.
  - by rewrite Hcon'.
Qed.

(** ** The registry *)

Lemma step_registry_kept s ev k :
  is_Some (hiddenTypes s !! k) → is_Some (hiddenTypes (step s ev) !! k).
Proof.
  intros Hk.
  destruct ev as [|t|id o|id o|i];
    try (rewrite (step_hiddenTypes parse_timerange getInterval);
         [done|simpl; tauto]).
  simpl.
  destruct (histogram s) as [ci|]; [|done].
  destruct (generateLabels ci !! i) as [item|]; [|done].
  unfold onClick.
  destruct (isDatasetVisible ci (datasetIndex item)); simpl;
    by apply put_is_Some.
Qed.

(** X7.  No event removes an entry from the registry: a key that has an entry
    keeps one through every refresh, settlement and click. *)
Theorem registry_keeps_entries s evs k :
  is_Some (hiddenTypes s !! k) → is_Some (hiddenTypes (run s evs) !! k).
Proof.
  revert s. induction evs as [|ev evs IH]; intros s Hk; simpl; [done|].
  apply IH. by apply step_registry_kept.
Qed.

(** ** Legend clicks *)

(** X8.  Two clicks on the same series bring every series back to how it was
    rendered, with the datasets and labels untouched; for a label other than
    [__proto__] the registry entry of the clicked label then records the
    series's original state, whatever it held before. *)
Theorem double_click_restores s ci i item :
  histogram s = Some ci →
  generateLabels ci !! i = Some item →
  let s2 := step (step s (EvLegendClick i)) (EvLegendClick i) in
  (∃ ci2, histogram s2 = Some ci2
      ∧ (∀ j, isDatasetVisible ci2 j = isDatasetVisible ci j)
      ∧ data_datasets ci2 = data_datasets ci
      ∧ data_labels ci2 = data_labels ci)
  ∧ (text item ≠ "__proto__" →
     hiddenTypes s2 !! text item = Some (negb (isDatasetVisible ci i))
     ∧ get (hiddenTypes s2) (text item) = Bool (negb (isDatasetVisible ci i)))
  ∧ (∀ k, k ≠ text item →
       hiddenTypes s2 !! k = hiddenTypes s !! k
       ∧ get (hiddenTypes s2) k = get (hiddenTypes s) k)
  ∧ loading s2 = loading s
  ∧ calls s2 = calls s.
Proof.
  intros Hci Hi s2. subst s2.
  destruct (generateLabels_lookup _ _ _ Hi) as (ds & Hds & Htext & _).
  rewrite (step_click parse_timerange getInterval s ci i item Hci Hi).
  set (ci1 := setDatasetVisibility ci i (negb (isDatasetVisible ci i))).
  set (s1 := set_hiddenTypes _ _).
  assert (isDatasetVisible ci1 i = negb (isDatasetVisible ci i)) as Hflip.
  { unfold ci1. rewrite isDatasetVisible_set, decide_True by done.
    by rewrite Hds. }
  assert (∃ item1, generateLabels ci1 !! i = Some item1
                   ∧ text item1 = text item) as (item1 & Hi1 & Ht1).
  { unfold generateLabels. rewrite list_lookup_imap. simpl. rewrite Hds.
    simpl. eexists. split; [done|]. simpl. done. }
  rewrite (step_click parse_timerange getInterval s1 ci1 i item1 eq_refl Hi1).
  simpl. rewrite Ht1, Hflip, negb_involutive.
  split_and!; try done.
  - eexists. split; [done|]. split_and!; try done.
    intros j. rewrite isDatasetVisible_set.
    case_decide as Hij.
    + subst j. unfold ci1. simpl. by rewrite Hds.
    + unfold ci1. by rewrite isDatasetVisible_set, decide_False.
  - intros Hk. split; [by apply put_lookup_eq | by apply get_put_eq].
  - intros k Hk. split; [by rewrite !put_lookup_ne | by rewrite !get_put_ne].
Qed.

(** ** The chart between two refreshes *)

Lemma histogramTime_then_datasets a e et d s :
  match histogramTime_then a e et d s with
  | Normal s' | Throw s' _ =>
      chart_datasets s' = chart_datasets s
      ∨ ∃ ds, chart_datasets s' = chart_datasets s ++ [ds]
  end.
Proof.
  unfold histogramTime_then, chart_datasets.
  destruct (decide (length (labels_at a s) = 0)) as [H0|H0];
    destruct (histogram s) as [h|] eqn:Hh; simpl; rewrite ?Hh; simpl;
    repeat match goal with
           | |- context [decide ?P] => destruct (decide P); simpl
           end;
    rewrite ?Hh; simpl; eauto.
Qed.

(** X9.  Between two refreshes the chart's series are only ever appended to: an
    event that is not a refresh leaves the series there are in place and in
    order, and adds at most one at the end. *)
Theorem datasets_append_only s ev :
  ¬ is_restart ev →
  chart_datasets (step s ev) = chart_datasets s
  ∨ ∃ ds, chart_datasets (step s ev) = chart_datasets s ++ [ds].
Proof.
  intros Hev. destruct ev as [|t|id o|id o|i]; simpl; try done.
  - left.
    destruct (take_call id (calls s)) as [[[req interval|] rest]|] eqn:E;
      try done.
    destruct o as [rows|r]; simpl; [|done].
    destruct (groupBy_rows_spec interval (length (scopes s)) rows
                (set_scopes (scopes s ++ [{| eventTypes := []; labels := [] |}])
                            (set_calls rest s))) as (_ & _ & Hp).
    destruct Hp as [Hh _ _ _ _ _ _]. unfold chart_datasets. simpl.
    by rewrite Hh.
  - destruct (take_call id (calls s)) as [[[|req a e et] rest]|] eqn:E;
      try (by left).
    destruct o as [d|r]; simpl; [|by left].
    pose proof (histogramTime_then_datasets a e et d (set_calls rest s)) as H.
    destruct (histogramTime_then a e et d (set_calls rest s)); exact H.
  - left. destruct (histogram s) as [ci|] eqn:Hci; [|done].
    destruct (generateLabels ci !! i) as [item|]; [|done].
    unfold onClick, chart_datasets.
    destruct (isDatasetVisible ci (datasetIndex item)); simpl; by rewrite Hci.
Qed.

(** ** The registry and the rendered chart agree while labels are distinct *)

Lemma in_sync_same s s' :
  histogram s' = histogram s → hiddenTypes s' = hiddenTypes s →
  in_sync s → in_sync s'.
Proof.
  intros Hh Hr Hs ci i ds Hci Hds. rewrite Hr. rewrite Hh in Hci.
  by eapply Hs.
Qed.

Lemma plain_labels_app (l1 l2 : list Dataset) :
  plain_labels (l1 ++ l2) → plain_labels l1.
Proof.
  unfold plain_labels. rewrite fmap_app. intros [Hnd Hp]. split.
  - by apply NoDup_app in Hnd as (? & _ & _).
  - intros Hin. apply Hp, elem_of_app. by left.
Qed.

Lemma step_in_sync s ev :
  well_formed s →
  (plain_labels (chart_datasets s) → in_sync s) →
  plain_labels (chart_datasets (step s ev)) →
  in_sync (step s ev).
Proof.
  intros Hwf IH Hnd. destruct ev as [|t|id o|id o|i].
  - intros ci i ds [= <-] Hds. done.
  - intros ci i ds [= <-] Hds. done.
  - destruct (take_call id (calls s)) as [[[req interval|] rest]|] eqn:E.
    + destruct o as [rows|r].
      * destruct (step_groupBy_fulfilled parse_timerange getInterval
                    s id req interval rest rows E) as (_ & _ & Hh & Hr & _).
        apply (in_sync_same s); [done|done|]. apply IH.
        unfold chart_datasets in *. by rewrite Hh in Hnd.
      * destruct (step_groupBy_rejected parse_timerange getInterval
                    s id req interval rest r E) as (_ & _ & Hh & Hr & _).
        apply (in_sync_same s); [done|done|]. apply IH.
        unfold chart_datasets in *. by rewrite Hh in Hnd.
    + simpl in *. rewrite E in *. by apply IH.
    + simpl in *. rewrite E in *. by apply IH.
  - destruct (take_call id (calls s)) as [[[|req a e et] rest]|] eqn:E.
    + simpl in *. rewrite E in *. by apply IH.
    + destruct o as [d|r].
      * destruct (step_histogramTime_fulfilled parse_timerange getInterval
                    s id req a e et rest d Hwf E)
          as (h & Hh & _ & _ & Hh' & _ & _ & _ & Hr & _).
        cbv zeta in Hh', Hr.
        destruct Hwf as (_ & Hc & Hok).
        destruct (take_call_Forall _ _ _ _ _ E Hc) as [_ (_ & _ & Het)].
        simpl in Het. specialize (Hok h Hh).
        set (h1 := if decide (length (labels_at a s) = 0)
                   then set_labels (SharedLabels a) h else h) in Hh'.
        assert (data_datasets h1 = data_datasets h
                ∧ meta_hidden h1 = meta_hidden h) as [Hd1 Hm1].
        { unfold h1. by destruct (decide (length (labels_at a s) = 0)). }
        unfold chart_datasets in IH, Hnd. rewrite Hh in IH.
        rewrite Hh' in Hnd.
        intros ci i ds Hci Hds. rewrite Hh' in Hci. rewrite Hr.
        injection Hci as <-.
        destruct (decide (merges a d s)) as [Hm|Hm]; simpl in Hds, Hnd.
        -- rewrite Hd1 in Hds, Hnd.
           apply plain_labels_app in Hnd.
           destruct (decide (i < length (data_datasets h))) as [Hlt|Hge].
           ++ rewrite lookup_app_l in Hds by done.
              rewrite <- (IH Hnd h i ds Hh Hds).
              unfold isDatasetVisible. simpl.
              by rewrite Hd1, Hm1, lookup_app_l.
           ++ assert (meta_hidden h !! i = None) as Hnone.
              { destruct (meta_hidden h !! i) eqn:Hmi; [|done].
                exfalso. apply Hge, Hok. by eexists. }
              unfold isDatasetVisible. simpl. rewrite Hd1, Hm1, Hds, Hnone.
              rewrite lookup_app_r in Hds by lia.
              destruct (i - length (data_datasets h)) as [|n] eqn:Hn;
                [|by destruct n].
              injection Hds as <-. simpl. by rewrite Het.
        -- rewrite Hd1 in Hds, Hnd.
           rewrite <- (IH Hnd h i ds Hh Hds).
           unfold isDatasetVisible. by rewrite Hd1, Hm1.
      * destruct (step_histogramTime_rejected parse_timerange getInterval
                    s id req a e et rest r E) as (_ & _ & Hh & _ & Hr & _).
        apply (in_sync_same s); [done|done|]. apply IH.
        unfold chart_datasets in *. by rewrite Hh in Hnd.
    + simpl in *. rewrite E in *. by apply IH.
  - destruct (histogram s) as [ci|] eqn:Hci;
      [|simpl in *; rewrite Hci in *; by apply IH].
    destruct (generateLabels ci !! i) as [item|] eqn:Hi;
      [|simpl in *; rewrite Hci, Hi in *; by apply IH].
    rewrite (step_click parse_timerange getInterval s ci i item Hci Hi) in *.
    destruct (generateLabels_lookup _ _ _ Hi) as (dsi & Hdsi & Htext & _).
    unfold chart_datasets in IH, Hnd. rewrite Hci in IH. simpl in Hnd.
    specialize (IH Hnd). destruct Hnd as [Hnd Hproto].
    assert (text item ≠ "__proto__") as Hk.
    { intros Heq. apply Hproto. rewrite <- Heq, Htext.
      apply list_elem_of_fmap_2. by eapply list_elem_of_lookup_2. }
    intros ci' j ds [= <-] Hds. simpl in Hds |- *.
    rewrite isDatasetVisible_set.
    destruct (decide (i = j)) as [<-|Hne].
    + rewrite Hdsi. rewrite Hdsi in Hds. injection Hds as <-.
      rewrite <- Htext, get_put_eq by done. done.
    + rewrite get_put_ne; [by eapply IH|].
      intros Heq. apply Hne.
      eapply (NoDup_lookup (label <$> data_datasets ci) i j (label ds));
        [done| |].
      * rewrite list_lookup_fmap, Hdsi. simpl. by rewrite <- Htext, Heq.
      * by rewrite list_lookup_fmap, Hds.
Qed.

Lemma run_in_sync s evs :
  well_formed s →
  (plain_labels (chart_datasets s) → in_sync s) →
  plain_labels (chart_datasets (run s evs)) →
  in_sync (run s evs).
Proof.
  revert s. induction evs as [|ev evs IH]; intros s Hwf Hs; simpl; [done|].
  apply IH.
  - by apply step_well_formed.
  - by apply step_in_sync.
Qed.

(** X10.  While the series on the chart have pairwise distinct labels, none
    of them [__proto__], every series is rendered as a read of its label on
    the registry says, and a legend click then flips both the series and
    what that read gives, touching nothing else. *)
Theorem click_toggles_with_distinct_labels (t0 : string) evs :
  let s := run (init t0) evs in
  plain_labels (chart_datasets s) →
  in_sync s ∧ ∀ i, click_toggles parse_timerange getInterval s i.
Proof.
  intros s Hnd.
  assert (in_sync s) as Hsync.
  { apply run_in_sync; [apply init_well_formed| |done].
    intros _ ci i ds Hci. done. }
  split; [done|].
  intros i ci item Hci Hi.
  destruct (generateLabels_lookup _ _ _ Hi) as (ds & Hds & Htext & _).
  pose proof (Hsync ci i ds Hci Hds) as Hv. rewrite <- Htext in Hv.
  assert (text item ≠ "__proto__") as Hk.
  { intros Heq. destruct Hnd as [_ Hproto]. apply Hproto.
    unfold chart_datasets. rewrite Hci, <- Heq, Htext.
    apply list_elem_of_fmap_2. by eapply list_elem_of_lookup_2. }
  cbv zeta.
  rewrite (step_click parse_timerange getInterval s ci i item Hci Hi).
  simpl. split_and!; try done.
  - eexists. split; [done|]. split.
    + rewrite isDatasetVisible_set, decide_True by done. by rewrite Hds.
    + intros j Hj. by rewrite isDatasetVisible_set, decide_False.
  - rewrite get_put_eq by done. simpl. rewrite Hv.
    by destruct (truthy (get (hiddenTypes s) (text item))).
  - intros k Hk'. by apply put_lookup_ne.
Qed.

(** ** Diagnostics *)

Lemma histogramTime_then_console a e et d s :
  match histogramTime_then a e et d s with
  | Normal s' | Throw s' _ =>
      console s' = console s
      ∨ console s' = console s ++ ["ERROR: Label and data mismatch"]
  end.
Proof.
  unfold histogramTime_then.
  destruct (decide (length (labels_at a s) = 0)) as [H0|H0];
    destruct (histogram s) as [h|] eqn:Hh; simpl; rewrite ?Hh; simpl;
    repeat match goal with
           | |- context [decide ?P] => destruct (decide P); simpl
           end;
    rewrite ?Hh; simpl; eauto.
Qed.

Lemma step_console s ev :
  console (step s ev) = console s
  ∨ console (step s ev) = console s ++ ["ERROR: Label and data mismatch"].
Proof.
  destruct ev as [|t|id o|id o|i]; simpl; try (by left).
  - left.
    destruct (take_call id (calls s)) as [[[req interval|] rest]|] eqn:E;
      try done.
    destruct o as [rows|r]; simpl; [|done].
    destruct (groupBy_rows_spec interval (length (scopes s)) rows
                (set_scopes (scopes s ++ [{| eventTypes := []; labels := [] |}])
                            (set_calls rest s))) as (_ & _ & Hp).
    by destruct Hp.
  - destruct (take_call id (calls s)) as [[[|req a e et] rest]|] eqn:E;
      try (by left).
    destruct o as [d|r]; simpl; [|by left].
    pose proof (histogramTime_then_console a e et d (set_calls rest s)) as H.
    destruct (histogramTime_then a e et d (set_calls rest s)); exact H.
  - left. destruct (histogram s) as [ci|]; [|done].
    destruct (generateLabels ci !! i) as [item|]; [|done].
    unfold onClick. by destruct (isDatasetVisible ci (datasetIndex item)).
Qed.

Lemma step_unhandled s ev :
  well_formed s → ¬ is_rejection ev → unhandled (step s ev) = unhandled s.
Proof.
  intros Hwf Hev. destruct ev as [|t|id o|id o|i]; try done.
  - destruct o as [rows|r]; [|by destruct Hev].
    destruct (take_call id (calls s)) as [[[req interval|] rest]|] eqn:E;
      try (simpl; by rewrite E).
    by destruct (step_groupBy_fulfilled parse_timerange getInterval
                   s id req interval rest rows E) as (_ & _ & _ & _ & _ & ?).
  - destruct o as [d|r]; [|by destruct Hev].
    destruct (take_call id (calls s)) as [[[|req a e et] rest]|] eqn:E;
      try (simpl; by rewrite E).
    by destruct (step_histogramTime_fulfilled parse_timerange getInterval
                   s id req a e et rest d Hwf E)
      as (h & _ & _ & _ & _ & _ & _ & _ & _ & ?).
  - simpl. destruct (histogram s) as [ci|]; [|done].
    destruct (generateLabels ci !! i) as [item|]; [|done].
    unfold onClick. by destruct (isDatasetVisible ci (datasetIndex item)).
Qed.

Lemma run_console s evs m :
  (∀ m, m ∈ console s → m = "ERROR: Label and data mismatch") →
  m ∈ console (run s evs) → m = "ERROR: Label and data mismatch".
Proof.
  revert s. induction evs as [|ev evs IH]; intros s Hs; simpl; [by apply Hs|].
  apply IH. intros m' Hm'.
  destruct (step_console s ev) as [H|H]; rewrite H in Hm'; [by apply Hs|].
  apply elem_of_app in Hm' as [?|Hm']; [by apply Hs|].
  by apply list_elem_of_singleton in Hm'.
Qed.

Lemma run_unhandled s evs :
  well_formed s →
  Forall (fun ev => ¬ is_rejection ev) evs →
  unhandled (run s evs) = unhandled s.
Proof.
  revert s. induction evs as [|ev evs IH]; intros s Hwf Hevs; simpl; [done|].
  apply Forall_cons in Hevs as [Hev Hevs].
  rewrite IH; [by apply step_unhandled| |done].
  by apply step_well_formed.
Qed.

(** X11.  The only message the panel ever logs is the mismatch error. *)
Theorem console_only_mismatch (t0 : string) evs m :
  m ∈ console (run (init t0) evs) → m = "ERROR: Label and data mismatch".
Proof.
  apply run_console. intros m' Hm'. by apply elem_of_nil in Hm'.
Qed.

(** X12.  As long as no call is rejected nothing is left unhandled: whenever a
    response is handled the chart exists, so no callback throws. *)
Theorem callbacks_never_throw (t0 : string) evs :
  Forall (fun ev => ¬ is_rejection ev) evs →
  unhandled (run (init t0) evs) = [].
Proof.
  intros Hevs. rewrite run_unhandled; [done| |done]. apply init_well_formed.
Qed.

End Further.

(** ** Chart objects *)



(** ** The further properties on concrete runs *)

Lemma discovery_fan_out_witness :
  take_call 0 (calls (refresh0 panel0))
  = Some (GroupBy {| field := "event_type"; size := 100;
                     gb_time_range := "1h" |} "1h", [])
  ∧ snd <$> calls (step0 (refresh0 panel0)
                     (EvGroupBy 0 (Fulfilled [Scenario.alert; Scenario.dns])))
    = [HistogramTime {| time_range := "1h"; interval := "1h";
                        event_type := "alert"; query_string := "" |}
                     0 Scenario.alert "alert";
       HistogramTime {| time_range := "1h"; interval := "1h";
                        event_type := "dns"; query_string := "" |}
                     0 Scenario.dns "dns"]
  ∧ loading (step0 (refresh0 panel0)
               (EvGroupBy 0 (Fulfilled [Scenario.alert; Scenario.dns])))
    = 2%Z.
Proof.
  split; [vm_compute; reflexivity|].
  edestruct (fun req interval =>
               discovery_fan_out (fun t => t) (fun r => r)
                 (refresh0 panel0) 0 req interval []
                 [Scenario.alert; Scenario.dns])
    as (H1 & H2 & _); [vm_compute; reflexivity|].
  split.
  - rewrite H1. vm_compute. reflexivity.
  - rewrite H2. vm_compute. reflexivity.
Defined.

Lemma mismatched_response_dropped_witness :
  labels_at 0 (run0 panel0 Scenario.one_series) ≠ []
  ∧ length [Scenario.point 100 5; Scenario.point 200 7; Scenario.point 300 9]
    ≠ length (labels_at 0 (run0 panel0 Scenario.one_series))
  ∧ chart_datasets
      (step0 (run0 panel0 Scenario.one_series)
         (EvHistogramTime 1
            (Fulfilled [Scenario.point 100 5; Scenario.point 200 7;
                        Scenario.point 300 9])))
    = chart_datasets (run0 panel0 Scenario.one_series)
  ∧ console
      (step0 (run0 panel0 Scenario.one_series)
         (EvHistogramTime 1
            (Fulfilled [Scenario.point 100 5; Scenario.point 200 7;
                        Scenario.point 300 9])))
    = ["ERROR: Label and data mismatch"].
Proof.
  assert (labels_at 0 (run0 panel0 Scenario.one_series) ≠ []) as Hne.
  { vm_compute. discriminate. }
  assert (length [Scenario.point 100 5; Scenario.point 200 7;
                  Scenario.point 300 9]
          ≠ length (labels_at 0 (run0 panel0 Scenario.one_series))) as Hlen.
  { vm_compute. lia. }
  split_and!; [exact Hne | exact Hlen | |];
    edestruct (fun req et rest =>
                 mismatched_response_dropped (fun t => t) (fun r => r)
                   "1h" Scenario.one_series 1 req 0 Scenario.alert et rest
                   [Scenario.point 100 5; Scenario.point 200 7;
                    Scenario.point 300 9])
      as (H1 & _ & _ & H2 & _);
    [vm_compute; reflexivity | exact Hne | exact Hlen | | 
     vm_compute; reflexivity | exact Hne | exact Hlen | ].
  - exact H1.
  - rewrite H2. vm_compute. reflexivity.
Defined.

Lemma histogram_failure_witness :
  take_call 1 (calls (run0 panel0 Scenario.discovered))
  = Some (HistogramTime {| time_range := "1h"; interval := "1h";
                           event_type := "alert"; query_string := "" |}
                        0 Scenario.alert "alert",
          [(2, HistogramTime {| time_range := "1h"; interval := "1h";
                                event_type := "dns"; query_string := "" |}
                             0 Scenario.dns "dns")])
  ∧ unhandled (step0 (run0 panel0 Scenario.discovered)
                 (EvHistogramTime 1 (Rejected "timeout")))
    = ["timeout"]
  ∧ loading (step0 (run0 panel0 Scenario.discovered)
               (EvHistogramTime 1 (Rejected "timeout")))
    = 1%Z.
Proof.
  split; [vm_compute; reflexivity|].
  edestruct (fun req et rest =>
               histogram_failure (fun t => t) (fun r => r)
                 (run0 panel0 Scenario.discovered) 1 req 0 Scenario.alert
                 et rest "timeout")
    as (_ & _ & _ & H1 & H2 & _); [vm_compute; reflexivity|].
  split.
  - rewrite H1. vm_compute. reflexivity.
  - rewrite H2. vm_compute. reflexivity.
Defined.

Lemma nonempty_response_fixes_labels_witness :
  labels_at 0 (run0 panel0 Scenario.discovered) = []
  ∧ [Scenario.point 100 1; Scenario.point 200 2] ≠ []
  ∧ chart_labels
      (step0 (run0 panel0 Scenario.discovered)
         (EvHistogramTime 2
            (Fulfilled [Scenario.point 100 1; Scenario.point 200 2])))
    = [100; 200]%Z
  ∧ labels_at 0
      (run0 (step0 (run0 panel0 Scenario.discovered)
               (EvHistogramTime 2
                  (Fulfilled [Scenario.point 100 1; Scenario.point 200 2])))
            [EvHistogramTime 1
               (Fulfilled [Scenario.point 300 5; Scenario.point 400 7])])
    = [100; 200]%Z.
Proof.
  split_and!; [vm_compute; reflexivity | discriminate | |];
    edestruct (fun req et rest =>
                 nonempty_response_fixes_labels (fun t => t) (fun r => r)
                   "1h" Scenario.discovered 2 req 0 Scenario.dns et rest
                   [Scenario.point 100 1; Scenario.point 200 2]
                   [EvHistogramTime 1
                      (Fulfilled [Scenario.point 300 5;
                                  Scenario.point 400 7])])
      as (H1 & H2);
    [vm_compute; reflexivity | vm_compute; reflexivity | discriminate |
    |vm_compute; reflexivity | vm_compute; reflexivity | discriminate | ].
  - exact H1.
  - exact H2.
Defined.

Lemma arrival_order_witness :
  1 ≠ 2
  ∧ labels_at 0 (run0 panel0 Scenario.discovered) = []
  ∧ [Scenario.point 100 5; Scenario.point 200 7] ≠ []
  ∧ length [Scenario.point 100 5; Scenario.point 200 7]
    = length [Scenario.point 100 1; Scenario.point 200 2]
  ∧ data <$> chart_datasets
      (step0 (step0 (run0 panel0 Scenario.discovered)
                (EvHistogramTime 1
                   (Fulfilled [Scenario.point 100 5; Scenario.point 200 7])))
         (EvHistogramTime 2
            (Fulfilled [Scenario.point 100 1; Scenario.point 200 2])))
    = [[5; 7]; [1; 2]]%Z
  ∧ data <$> chart_datasets
      (step0 (step0 (run0 panel0 Scenario.discovered)
                (EvHistogramTime 2
                   (Fulfilled [Scenario.point 100 1; Scenario.point 200 2])))
         (EvHistogramTime 1
            (Fulfilled [Scenario.point 100 5; Scenario.point 200 7])))
    = [[1; 2]; [5; 7]]%Z.
Proof.
  split_and!; [lia | vm_compute; reflexivity | discriminate | reflexivity | |];
    edestruct (fun req1 req2 et1 et2 r1 r2 =>
                 arrival_order (fun t => t) (fun r => r)
                   "1h" Scenario.discovered 1 2 req1 req2 0
                   Scenario.alert Scenario.dns et1 et2 r1 r2
                   [Scenario.point 100 5; Scenario.point 200 7]
                   [Scenario.point 100 1; Scenario.point 200 2])
      as (H1 & H2 & _);
    [lia | vm_compute; reflexivity | vm_compute; reflexivity
     | vm_compute; reflexivity | discriminate | reflexivity |
    |lia | vm_compute; reflexivity | vm_compute; reflexivity
     | vm_compute; reflexivity | discriminate | reflexivity | ].
  - rewrite H1. vm_compute. reflexivity.
  - rewrite H2. vm_compute. reflexivity.
Defined.

Lemma stale_response_lands_on_new_chart_witness :
  is_restart (EvTimeRange "24h")
  ∧ merges 0 [Scenario.point 100 5] (run0 panel0 Scenario.discovered)
  ∧ data <$> chart_datasets
      (step0 (step0 (run0 panel0 Scenario.discovered) (EvTimeRange "24h"))
         (EvHistogramTime 1 (Fulfilled [Scenario.point 100 5])))
    = [[5%Z]].
Proof.
  assert (merges 0 [Scenario.point 100 5] (run0 panel0 Scenario.discovered))
    as Hm.
  { left. vm_compute. reflexivity. }
  split_and!; [exact I | exact Hm |].
  edestruct (fun req et rest =>
               stale_response_lands_on_new_chart (fun t => t) (fun r => r)
                 "1h" Scenario.discovered (EvTimeRange "24h") 1 req 0
                 Scenario.alert et rest [Scenario.point 100 5])
    as (H1 & _); [exact I | vm_compute; reflexivity | exact Hm |].
  rewrite H1. vm_compute. reflexivity.
Defined.

Lemma registry_keeps_entries_witness :
  is_Some (hiddenTypes panel0 !! "stats")
  ∧ is_Some (hiddenTypes
               (run0 panel0 (Scenario.one_series ++ [EvLegendClick 0]))
             !! "stats").
Proof.
  assert (is_Some (hiddenTypes panel0 !! "stats")) as H.
  { exists true. vm_compute. reflexivity. }
  split; [exact H|].
  apply (registry_keeps_entries (fun t => t) (fun r => r) panel0
           (Scenario.one_series ++ [EvLegendClick 0]) "stats" H).
Defined.

Lemma double_click_restores_witness :
  (∃ ci, histogram (run0 panel0 Scenario.one_series) = Some ci
         ∧ ∃ item, generateLabels ci !! 0 = Some item)
  ∧ hiddenTypes
      (step0 (step0 (run0 panel0 Scenario.one_series) (EvLegendClick 0))
             (EvLegendClick 0))
      !! "dns" = Some false
  ∧ loading
      (step0 (step0 (run0 panel0 Scenario.one_series) (EvLegendClick 0))
             (EvLegendClick 0))
    = 1%Z.
Proof.
  split.
  { eexists. split; [vm_compute; reflexivity|].
    eexists. vm_compute. reflexivity. }
  edestruct (fun ci item =>
               double_click_restores (fun t => t) (fun r => r)
                 (run0 panel0 Scenario.one_series) ci 0 item)
    as (_ & H1 & _ & H2 & _);
    [vm_compute; reflexivity | vm_compute; reflexivity |].
  split.
  - simpl text in H1. destruct H1 as [H1 _]; [discriminate|].
    rewrite H1. vm_compute. reflexivity.
  - rewrite H2. vm_compute. reflexivity.
Defined.

Lemma datasets_append_only_witness :
  ¬ is_restart (EvHistogramTime 2
                  (Fulfilled [Scenario.point 100 1; Scenario.point 200 2]))
  ∧ (chart_datasets
       (step0 (run0 panel0 Scenario.discovered)
          (EvHistogramTime 2
             (Fulfilled [Scenario.point 100 1; Scenario.point 200 2])))
     = chart_datasets (run0 panel0 Scenario.discovered)
     ∨ ∃ ds,
         chart_datasets
           (step0 (run0 panel0 Scenario.discovered)
              (EvHistogramTime 2
                 (Fulfilled [Scenario.point 100 1; Scenario.point 200 2])))
         = chart_datasets (run0 panel0 Scenario.discovered) ++ [ds]).
Proof.
  assert (¬ is_restart
            (EvHistogramTime 2
               (Fulfilled [Scenario.point 100 1; Scenario.point 200 2])))
    as H by (simpl; tauto).
  split; [exact H|].
  apply (datasets_append_only (fun t => t) (fun r => r)
           (run0 panel0 Scenario.discovered) _ H).
Defined.

Lemma click_toggles_with_distinct_labels_witness :
  plain_labels (chart_datasets
                  (run0 panel0
                     (Scenario.one_series
                        ++ [EvHistogramTime 1
                              (Fulfilled [Scenario.point 100 5;
                                          Scenario.point 200 7])])))
  ∧ in_sync (run0 panel0
               (Scenario.one_series
                  ++ [EvHistogramTime 1
                        (Fulfilled [Scenario.point 100 5;
                                    Scenario.point 200 7])])).
Proof.
  assert (plain_labels (chart_datasets
                   (run0 panel0
                      (Scenario.one_series
                         ++ [EvHistogramTime 1
                               (Fulfilled [Scenario.point 100 5;
                                           Scenario.point 200 7])]))))
    as H.
  { split; refine (bool_decide_unpack _ _); vm_compute; exact I. }
  split; [exact H|].
  apply (click_toggles_with_distinct_labels (fun t => t) (fun r => r)
           "1h" _ H).
Defined.

Lemma console_only_mismatch_witness :
  "ERROR: Label and data mismatch"
  ∈ console (run0 panel0
               (Scenario.one_series
                  ++ [EvHistogramTime 1 (Fulfilled [Scenario.point 100 5])]))
  ∧ "ERROR: Label and data mismatch" = "ERROR: Label and data mismatch".
Proof.
  assert ("ERROR: Label and data mismatch"
          ∈ console (run0 panel0
                       (Scenario.one_series
                          ++ [EvHistogramTime 1
                                (Fulfilled [Scenario.point 100 5])]))) as H.
  { vm_compute. apply list_elem_of_here. }
  split; [exact H|].
  apply (console_only_mismatch (fun t => t) (fun r => r) "1h" _ _ H).
Defined.

Lemma callbacks_never_throw_witness :
  Forall (fun ev => ¬ is_rejection ev) Scenario.one_series
  ∧ unhandled (run0 panel0 Scenario.one_series) = [].
Proof.
  assert (Forall (fun ev => ¬ is_rejection ev) Scenario.one_series) as H.
  { repeat constructor; simpl; tauto. }
  split; [exact H|].
  apply (callbacks_never_throw (fun t => t) (fun r => r) "1h" _ H).
Defined.

(** * A cycle that runs alone *)

Section Cycle.

Context {Range Interval : Type}.
Context (parse_timerange : string → Range) (getInterval : Range → Interval).

Abbreviation State := (State (Interval := Interval)).
Abbreviation Call := (Call (Interval := Interval)).
Abbreviation step := (step parse_timerange getInterval).
Abbreviation run := (run parse_timerange getInterval).
Abbreviation refresh := (refresh parse_timerange getInterval).

Implicit Types (s : State) (ev : Event) (evs : list Event).

Lemma histogram_calls_of_cycle t (interval : Interval) a n rows :
  Forall (of_cycle a) (histogram_calls t interval a n rows).
Proof.
  revert n. induction rows as [|e rows IH]; intros n; simpl; constructor;
    [done|apply IH].
Qed.

Lemma aligned_lengths a s :
  aligned a s →
  Forall (fun ds => length (data ds) = length (chart_labels s))
         (chart_datasets s).
Proof.
  intros (_ & ci & Hci & [(Hl & _ & Hd)|(Hl & _ & _ & Hd)]);
    unfold chart_datasets, chart_labels; rewrite Hci, Hl.
  - rewrite Hd. constructor.
  - done.
Qed.

Lemma step_aligned a s ev :
  well_formed s → aligned a s → within_cycle ev → aligned a (step s ev).
Proof.
  intros Hwf (Hcalls & ci & Hci & Hchart) Hev.
  destruct ev as [|t|id o|id o|i]; try done.
  - (* a discovery settlement: none is in flight *)
    simpl.
    destruct (take_call id (calls s)) as [[[req interval|] rest]|] eqn:E;
      try (split; [done|by exists ci]).
    by destruct (take_call_Forall _ _ _ _ _ E Hcalls) as [_ ?].
  - destruct (take_call id (calls s)) as [[[|req b e et] rest]|] eqn:E;
      try (simpl; rewrite E; split; [done|by exists ci]).
    destruct (take_call_Forall _ _ _ _ _ E Hcalls) as [Hrest Hb].
    unfold of_cycle in Hb. simpl in Hb. subst b.
    destruct o as [d|r].
    + destruct (step_histogramTime_fulfilled parse_timerange getInterval
                  s id req a e et rest d Hwf E)
        as (h & Hh & Hl & _ & Hh' & _ & _ & Hc & _).
      cbv zeta in Hl, Hh', Hc. rewrite Hci in Hh. injection Hh as <-.
      split; [by rewrite Hc|].
      eexists. split; [exact Hh'|]. right.
      destruct d as [|p d]; [done|].
      destruct Hchart as [(Hlab & H0 & Hd)|(Hlab & Hne & Hnd & Hd)].
      * rewrite H0 in Hl. simpl in Hl.
        destruct (decide (length (labels_at a s) = 0)) as [_|Hn];
          [|by rewrite H0 in Hn].
        destruct (decide (merges a (p :: d) s)) as [_|Hn];
          [|exfalso; apply Hn; left; by rewrite H0].
        simpl. rewrite Hl, Hd. split_and!; [done|done|done|].
        repeat constructor. simpl. by rewrite !length_fmap.
      * destruct (decide (length (labels_at a s) = 0)) as [H0|_];
          [exfalso; apply Hne; by apply nil_length_inv|].
        rewrite Hl.
        destruct (decide (merges a (p :: d) s)) as [[H0|Hm]|_]; simpl.
        -- exfalso. apply Hne. by apply nil_length_inv.
        -- split_and!; [done|done| |].
           ++ by destruct (data_datasets ci).
           ++ apply Forall_app. split; [done|].
              repeat constructor. simpl. rewrite length_fmap. exact Hm.
        -- by split_and!.
    + destruct (step_histogramTime_rejected parse_timerange getInterval
                  s id req a e et rest r E) as (Hc & _ & Hh & Hsc & _).
      split; [by rewrite Hc|].
      exists ci. split; [by rewrite Hh|].
      unfold labels_at in *. by rewrite Hsc.
  - simpl. rewrite Hci.
    destruct (generateLabels ci !! i) as [item|] eqn:Hi;
      [|split; [done|by exists ci]].
    pose proof (step_click parse_timerange getInterval s ci i item Hci Hi)
      as Hstep.
    simpl in Hstep. rewrite Hci, Hi in Hstep. rewrite Hstep.
    split; [done|]. eexists. split; [done|]. exact Hchart.
Qed.

Lemma run_aligned a s evs :
  well_formed s → aligned a s → Forall within_cycle evs →
  aligned a (run s evs).
Proof.
  revert s. induction evs as [|ev evs IH]; intros s Hwf Hs Hevs; simpl;
    [done|].
  apply Forall_cons in Hevs as [Hev Hevs].
  apply IH; [by apply step_well_formed | by apply step_aligned | done].
Qed.

Lemma step_groupBy_fulfilled_labels s id req interval rest rows :
  take_call id (calls s) = Some (GroupBy req interval, rest) →
  labels_at (length (scopes s)) (step s (EvGroupBy id (Fulfilled rows))) = [].
Proof.
  intros E. simpl. rewrite E. simpl.
  destruct (groupBy_rows_spec interval (length (scopes s)) rows
              (set_scopes (scopes s ++ [{| eventTypes := []; labels := [] |}])
                          (set_calls rest s))) as (_ & _ & Hp).
  destruct Hp as [_ _ _ _ _ Hlab _].
  change (labels_at (length (scopes s))
            (foldl (groupBy_row interval (length (scopes s)))
               (set_scopes (scopes s ++ [{| eventTypes := []; labels := [] |}])
                  (set_calls rest s)) rows) = []).
  rewrite Hlab. unfold labels_at. simpl. by rewrite list_lookup_middle.
Qed.

(** X14.  A cycle started on an idle panel and not interrupted by another
    refresh: provided no histogram response comes without points, every
    series on the chart has as many values as the chart has labels, at every
    moment, whatever the order in which the calls settle, whichever of them
    fail or are dropped for a wrong point count, and whatever series the
    user clicks. *)
Theorem cycle_series_match_labels (t0 : string) evs0 rows evs :
  let s0 := run (init t0) evs0 in
  calls s0 = [] →
  Forall within_cycle evs →
  let s := run (step (refresh s0)
                     (EvGroupBy (next_call s0) (Fulfilled rows))) evs in
  Forall (fun ds => length (data ds) = length (chart_labels s))
         (chart_datasets s).
Proof.
  intros s0 Hidle Hevs s.
  pose proof (reachable_well_formed parse_timerange getInterval t0 evs0) as Hwf0.
  pose proof (refresh_well_formed parse_timerange getInterval s0 Hwf0) as Hwf1.
  assert (take_call (next_call s0) (calls (refresh s0))
          = Some (GroupBy {| field := "event_type"; size := 100;
                             gb_time_range := TIME_RANGE s0 |}
                          (getInterval (parse_timerange (TIME_RANGE s0))),
                  [])) as E.
  { simpl. rewrite Hidle. simpl. by rewrite decide_True. }
  set (s2 := step (refresh s0) (EvGroupBy (next_call s0) (Fulfilled rows))).
  assert (well_formed s2) as Hwf2 by (by apply step_well_formed).
  apply (aligned_lengths (length (scopes s0))).
  apply run_aligned; [done| |done].
  destruct (step_groupBy_fulfilled parse_timerange getInterval
              _ _ _ _ _ rows E) as (Hc & _ & Hh & _).
  subst s2. split.
  - rewrite Hc. simpl. apply histogram_calls_of_cycle.
  - exists new_Chart. split; [by rewrite Hh|]. left. split_and!; [done| |done].
    exact (step_groupBy_fulfilled_labels _ _ _ _ _ rows E).
Qed.

(** X15.  In such a cycle the response merged first, the chart being still empty,
    fixes the labels: whatever the cycle's other calls then deliver, in
    whatever order, the chart's labels are that response's times. *)
Theorem cycle_labels_are_first_response
  (t0 : string) evs0 rows evs id req a e et rest d evs' :
  let s0 := run (init t0) evs0 in
  calls s0 = [] →
  Forall within_cycle evs →
  let s := run (step (refresh s0)
                     (EvGroupBy (next_call s0) (Fulfilled rows))) evs in
  take_call id (calls s) = Some (HistogramTime req a e et, rest) →
  chart_datasets s = [] →
  d ≠ [] →
  Forall within_cycle evs' →
  let s' := run (step s (EvHistogramTime id (Fulfilled d))) evs' in
  chart_labels s' = time <$> d
  ∧ Forall (fun ds => length (data ds) = length d) (chart_datasets s').
Proof.
  intros s0 Hidle Hevs s E Hempty Hd Hevs' s'.
  pose proof (reachable_well_formed parse_timerange getInterval t0 evs0) as Hwf0.
  pose proof (refresh_well_formed parse_timerange getInterval s0 Hwf0) as Hwf1.
  assert (take_call (next_call s0) (calls (refresh s0))
          = Some (GroupBy {| field := "event_type"; size := 100;
                             gb_time_range := TIME_RANGE s0 |}
                          (getInterval (parse_timerange (TIME_RANGE s0))),
                  [])) as E0.
  { simpl. rewrite Hidle. simpl. by rewrite decide_True. }
  set (s2 := step (refresh s0) (EvGroupBy (next_call s0) (Fulfilled rows)))
    in *.
  assert (well_formed s2) as Hwf2 by (by apply step_well_formed).
  assert (aligned (length (scopes s0)) s2) as Hal2.
  { destruct (step_groupBy_fulfilled parse_timerange getInterval
                _ _ _ _ _ rows E0) as (Hc & _ & Hh & _).
    subst s2. split.
    - rewrite Hc. simpl. apply histogram_calls_of_cycle.
    - exists new_Chart. split; [by rewrite Hh|]. left.
      split_and!; [done| |done].
      exact (step_groupBy_fulfilled_labels _ _ _ _ _ rows E0). }
  assert (well_formed s) as Hwf by (by apply run_well_formed).
  assert (aligned (length (scopes s0)) s) as Hal by (by apply run_aligned).
  destruct Hal as (Hcalls & ci & Hci & Hchart).
  destruct (take_call_Forall _ _ _ _ _ E Hcalls) as [_ Ha].
  unfold of_cycle in Ha. simpl in Ha. subst a.
  assert (labels_at (length (scopes s0)) s = []) as H0.
  { destruct Hchart as [(_ & H0 & _)|(_ & _ & Hnd & _)]; [done|].
    unfold chart_datasets in Hempty. by rewrite Hci in Hempty. }
  set (a := length (scopes s0)) in *.
  set (s1 := step s (EvHistogramTime id (Fulfilled d))) in *.
  assert (labels_at a s1 = time <$> d) as Hl1.
  { destruct (step_histogramTime_fulfilled parse_timerange getInterval
                s id req a e et rest d Hwf E) as (h & _ & Hl & _).
    cbv zeta in Hl. fold s1 in Hl. rewrite Hl, H0. done. }
  assert (time <$> d ≠ []) as Hne by (by destruct d).
  assert (aligned a s1) as Hal1.
  { apply step_aligned; [done| |by destruct d].
    split; [done|]. by exists ci. }
  assert (well_formed s1) as Hwf1' by (by apply step_well_formed).
  assert (labels_at a s' = time <$> d) as Hl'.
  { unfold s'. rewrite (run_labels_stay parse_timerange getInterval);
      [done|]. by rewrite Hl1. }
  pose proof (run_aligned a s1 evs' Hwf1' Hal1 Hevs') as Hal'.
  fold s' in Hal'.
  pose proof (aligned_lengths a s' Hal') as Hlen.
  destruct Hal' as (_ & ci' & Hci' & [(_ & H0' & _)|(Hlab & _ & _ & _)]).
  { by rewrite Hl' in H0'. }
  assert (chart_labels s' = time <$> d) as Hcl.
  { unfold chart_labels. by rewrite Hci', Hlab. }
  split; [done|].
  rewrite Hcl, length_fmap in Hlen. exact Hlen.
Qed.

End Cycle.

Lemma cycle_series_match_labels_witness :
  calls panel0 = []
  ∧ Forall within_cycle
      [EvHistogramTime 2 (Fulfilled [Scenario.point 100 1;
                                     Scenario.point 200 2]);
       EvLegendClick 0;
       EvHistogramTime 1 (Fulfilled [Scenario.point 100 5])]
  ∧ Forall (fun ds =>
              length (data ds)
              = length (chart_labels
                          (run0 (step0 (refresh0 (run0 panel0 []))
                                   (EvGroupBy (next_call (run0 panel0 []))
                                      (Fulfilled [Scenario.alert;
                                                  Scenario.dns])))
                             [EvHistogramTime 2
                                (Fulfilled [Scenario.point 100 1;
                                            Scenario.point 200 2]);
                              EvLegendClick 0;
                              EvHistogramTime 1
                                (Fulfilled [Scenario.point 100 5])])))
      (chart_datasets
         (run0 (step0 (refresh0 (run0 panel0 []))
                  (EvGroupBy (next_call (run0 panel0 []))
                     (Fulfilled [Scenario.alert; Scenario.dns])))
            [EvHistogramTime 2
               (Fulfilled [Scenario.point 100 1; Scenario.point 200 2]);
             EvLegendClick 0;
             EvHistogramTime 1 (Fulfilled [Scenario.point 100 5])])).
Proof.
  assert (Forall within_cycle
            [EvHistogramTime 2 (Fulfilled [Scenario.point 100 1;
                                           Scenario.point 200 2]);
             EvLegendClick 0;
             EvHistogramTime 1 (Fulfilled [Scenario.point 100 5])]) as H.
  { repeat constructor. }
  split_and!; [reflexivity | exact H |].
  apply (cycle_series_match_labels (fun t => t) (fun r => r) "1h" []
           [Scenario.alert; Scenario.dns] _ eq_refl H).
Defined.

Lemma cycle_labels_are_first_response_witness :
  calls panel0 = []
  ∧ chart_datasets
      (run0 (step0 (refresh0 (run0 panel0 []))
               (EvGroupBy (next_call (run0 panel0 []))
                  (Fulfilled [Scenario.alert; Scenario.dns]))) [])
    = []
  ∧ Forall within_cycle
      [EvHistogramTime 1
         (Fulfilled [Scenario.point 300 5; Scenario.point 400 7])]
  ∧ chart_labels
      (run0 (step0 (run0 (step0 (refresh0 (run0 panel0 []))
                            (EvGroupBy (next_call (run0 panel0 []))
                               (Fulfilled [Scenario.alert; Scenario.dns])))
                      [])
               (EvHistogramTime 2
                  (Fulfilled [Scenario.point 100 1; Scenario.point 200 2])))
         [EvHistogramTime 1
            (Fulfilled [Scenario.point 300 5; Scenario.point 400 7])])
    = time <$> [Scenario.point 100 1; Scenario.point 200 2].
Proof.
  assert (Forall within_cycle
            [EvHistogramTime 1
               (Fulfilled [Scenario.point 300 5; Scenario.point 400 7])])
    as H by repeat constructor.
  split_and!; [reflexivity | vm_compute; reflexivity | exact H |].
  edestruct (fun req et rest =>
               cycle_labels_are_first_response (fun t => t) (fun r => r)
                 "1h" [] [Scenario.alert; Scenario.dns] [] 2 req 0
                 Scenario.dns et rest
                 [Scenario.point 100 1; Scenario.point 200 2]
                 [EvHistogramTime 1
                    (Fulfilled [Scenario.point 300 5; Scenario.point 400 7])])
    as (H1 & _);
    [reflexivity | constructor | vm_compute; reflexivity
     | vm_compute; reflexivity | discriminate | exact H |].
  exact H1.
Defined.
